(** * Philanthropy benchmark CSV tool: scoring and metric aggregation

    A shallow embedding of [philanthropy_csv_app.py] (version 1) and
    [philanthropy_csv_app_v2.py] (version 2): column selection, cell
    cleaning, the four averages, the four sub-scores and the composite.

    Numbers.  The program computes on Python and NumPy floats.  Finite
    values are idealised as exact rationals ([Q]); the only non-finite value
    kept is NaN, the "not available" marker of pandas.  Binary rounding
    error, overflow and infinities are outside the model: sums, products
    and means are exact, and a NaN comes only from a NaN.  [round(x, 1)] is
    rounding of the exact value to the nearest tenth, ties to even; no
    statement below depends on how ties are broken.

    Exceptions.  Code that can raise returns a [result]; the only exceptions
    the modelled code can meet are a failed column lookup and a division by
    zero.

    Characters.  A Python [str] is modelled by a Stdlib [string] whose
    characters are the code points below 256, so that the pound sign
    (U+00A3) is the single character 163. *)

From Stdlib Require Import ZArith QArith Qround Qreduction Lqa Lia.
From Stdlib Require Import Bool List String Ascii.
Import ListNotations.

Local Open Scope Q_scope.

(** ** Exceptions *)

Inductive exn : Type :=
| KeyError (name : string)
| ZeroDivisionError.

Inductive result (A : Type) : Type :=
| Ok (a : A)
| Raise (e : exn).

Arguments Ok {A} a.
Arguments Raise {A} e.

Definition bind {A B : Type} (m : result A) (k : A -> result B) : result B :=
  match m with
  | Ok a => k a
  | Raise e => Raise e
  end.

Declare Scope result_scope.
Delimit Scope result_scope with result.
Notation "x <- m ;; k" := (bind m (fun x => k))
  (at level 61, m at next level, right associativity) : result_scope.

(** ** Numbers *)

Inductive num : Type :=
| Fin (q : Q)
| NaN.

Definition notna (x : num) : bool :=
  match x with Fin _ => true | NaN => false end.

(** [x == y] and [x > y], [x < y] of Python: every comparison with NaN is
    false. *)
Definition num_eqb (x y : num) : bool :=
  match x, y with
  | Fin a, Fin b => Qeq_bool a b
  | _, _ => false
  end.

Definition num_ltb (x y : num) : bool :=
  match x, y with
  | Fin a, Fin b => negb (Qle_bool b a)
  | _, _ => false
  end.

Definition num_gtb (x y : num) : bool := num_ltb y x.

Definition num_add (x y : num) : num :=
  match x, y with
  | Fin a, Fin b => Fin (a + b)
  | _, _ => NaN
  end.

Definition num_mul (x y : num) : num :=
  match x, y with
  | Fin a, Fin b => Fin (a * b)
  | _, _ => NaN
  end.

(** True division [x / y].  A zero divisor is reported as
    [ZeroDivisionError], the behaviour of Python numbers (NumPy scalars warn
    and yield an infinity or NaN instead, values this model does not have). *)
Definition num_div (x y : num) : result num :=
  match y with
  | Fin b =>
      if Qeq_bool b 0 then Raise ZeroDivisionError
      else match x with
           | Fin a => Ok (Fin (a / b))
           | NaN => Ok NaN
           end
  | NaN => Ok NaN
  end.

(** Rounding to the nearest integer, ties to the even neighbour. *)
Definition round_half_even (x : Q) : Z :=
  let n := Qfloor x in
  match Qcompare (x - inject_Z n) (1 # 2) with
  | Lt => n
  | Gt => (n + 1)%Z
  | Eq => if Z.even n then n else (n + 1)%Z
  end.

(** [round(x, 1)]: one decimal place; the result is kept in lowest terms.
    NaN rounds to NaN. *)
Definition round1 (x : num) : num :=
  match x with
  | Fin a => Fin (Qred (inject_Z (round_half_even (a * 10)) / 10))
  | NaN => NaN
  end.

(** The builtin [min(a, b)] of two arguments: [b] when [b < a], else [a]
    (so a NaN first argument is returned). *)
Definition py_min (a b : num) : num :=
  if num_ltb b a then b else a.

(** ** Strings *)

Local Open Scope string_scope.

(** The pound sign, U+00A3. *)
Definition pound : ascii := ascii_of_nat 163.
Definition comma : ascii := ","%char.

Fixpoint startswith (p s : string) : bool :=
  match p, s with
  | EmptyString, _ => true
  | String a p', String b s' => Ascii.eqb a b && startswith p' s'
  | String _ _, EmptyString => false
  end.

(** [sub in s] *)
Fixpoint str_in (sub s : string) : bool :=
  startswith sub s ||
  match s with
  | EmptyString => false
  | String _ s' => str_in sub s'
  end.

(** Removal of every character matching a one-character class, as
    [re.sub] with an empty replacement does. *)
Fixpoint remove_chars (cls : ascii -> bool) (s : string) : string :=
  match s with
  | EmptyString => EmptyString
  | String c s' => if cls c then remove_chars cls s' else String c (remove_chars cls s')
  end.

(** The comma class of version 1 and the pound-or-comma class of version 2. *)
Definition is_comma (c : ascii) : bool := Ascii.eqb c comma.
Definition is_pound_or_comma (c : ascii) : bool := Ascii.eqb c pound || Ascii.eqb c comma.

(** [str.isspace] on the code points below 256. *)
Definition is_space (c : ascii) : bool :=
  let n := nat_of_ascii c in
  ((9 <=? n) && (n <=? 13) || (28 <=? n) && (n <=? 32) || (n =? 133) || (n =? 160))%nat.

Fixpoint lstrip (s : string) : string :=
  match s with
  | EmptyString => EmptyString
  | String c s' => if is_space c then lstrip s' else s
  end.

Fixpoint rstrip (s : string) : string :=
  match s with
  | EmptyString => EmptyString
  | String c s' =>
      match rstrip s' with
      | EmptyString => if is_space c then EmptyString else String c EmptyString
      | r => String c r
      end
  end.

(** [s.strip()] *)
Definition strip (s : string) : string := rstrip (lstrip s).

(** ** The table library

    pandas is an external collaborator.  Its two conversions between text
    and numbers are an interface: the parser behind [pd.to_numeric] and the
    printer behind [astype(str)].  An empty cell prints as ["nan"], which
    the parser reads back as NaN. *)

Class Pandas : Type := {
  float_of_string : string -> option Q;
  string_of_float : Q -> string;
  float_of_string_nan : float_of_string "nan" = None
}.

(** A raw cell as [pd.read_csv] delivers it: a number, a string, or NaN for
    an empty cell. *)
Inductive cell : Type :=
| CNum (q : Q)
| CStr (s : string)
| CNaN.

Definition series : Type := list cell.

(** A table: its named columns in file order. *)
Definition dataframe : Type := list (string * series).

(** [df.columns] *)
Definition columns (df : dataframe) : list string := map fst df.

(** [name in df.columns] *)
Definition has_column (df : dataframe) (name : string) : bool :=
  existsb (String.eqb name) (columns df).

(** [df[name]] *)
Fixpoint getitem (df : dataframe) (name : string) : result series :=
  match df with
  | [] => Raise (KeyError name)
  | (n, s) :: df' => if String.eqb name n then Ok s else getitem df' name
  end.

(** [df[names]] for a list of names: a frame, here the list of its columns. *)
Fixpoint getitems (df : dataframe) (names : list string) : result (list series) :=
  match names with
  | [] => Ok []
  | n :: names' =>
      bind (getitem df n) (fun s =>
      bind (getitems df names') (fun rest => Ok (s :: rest)))
  end.

Section Conversions.
Context `{Pandas}.

(** [pd.to_numeric(s, errors="coerce")] on one string *)
Definition to_numeric_str (s : string) : num :=
  match float_of_string s with
  | Some q => Fin q
  | None => NaN
  end.

(** [pd.to_numeric(c, errors="coerce")] on one cell *)
Definition to_numeric (c : cell) : num :=
  match c with
  | CNum q => Fin q
  | CStr s => to_numeric_str s
  | CNaN => NaN
  end.

(** [astype(str)] on one cell *)
Definition astype_str (c : cell) : string :=
  match c with
  | CNum q => string_of_float q
  | CStr s => s
  | CNaN => "nan"
  end.

End Conversions.

(** [replace(',', '', regex=True)] on one cell: only strings are rewritten. *)
Definition replace_commas (c : cell) : cell :=
  match c with
  | CStr s => CStr (remove_chars is_comma s)
  | _ => c
  end.

(** [replace(',', '', regex=True)] followed by
    [pd.to_numeric(..., errors='coerce')], on one cell (version 1). *)
Definition comma_numeric `{Pandas} (c : cell) : num :=
  to_numeric (replace_commas c).

(** [Series.mean()]: NaN entries are skipped; NaN when nothing is left. *)
Definition dropna (xs : list num) : list Q :=
  flat_map (fun x => match x with Fin q => [q] | NaN => [] end) xs.

Definition Qsum (qs : list Q) : Q := fold_right Qplus 0%Q qs.

Definition mean (xs : list num) : num :=
  match dropna xs with
  | [] => NaN
  | qs => Fin (Qsum qs / inject_Z (Z.of_nat (List.length qs)))
  end.

(** [DataFrame.mean().mean()]: the mean of the column means. *)
Definition mean_of_means (frame : list (list num)) : num :=
  mean (map mean frame).

(** [Series.empty] *)
Definition series_empty {A : Type} (s : list A) : bool :=
  match s with [] => true | _ => false end.

(** ** Results of one run *)

Record metric_averages : Type := {
  m_income : num;
  m_gifts : num;
  m_interactions : num;
  m_events : num
}.

Record score_set : Type := {
  s_income : num;
  s_pipeline : num;
  s_team : num;
  s_integration : num;
  s_composite : num
}.

(** A run either renders its scores, stops after the error message of the
    [except] branch, or dies on an exception nobody catches. *)
Inductive outcome : Type :=
| Rendered (s : score_set)
| Stopped (e : exn)
| Crashed (e : exn).

Local Open Scope result_scope.

(** ** Presentation values *)

(** [x <= y] of Python: false when either side is NaN. *)
Definition num_leb (x y : num) : bool :=
  match x, y with
  | Fin a, Fin b => Qle_bool a b
  | _, _ => false
  end.

(** The text of a score box: the score followed by " / 10", or "N/A". *)
Inductive score_text : Type :=
| OutOfTen (score : num)
| NotAvailable.

(** One coloured box of the score panel. *)
Record box : Type := {
  box_label : string;
  box_color : string;
  box_text : score_text
}.

(** ** Version 1 ([philanthropy_csv_app.py]) *)

Module V1.

(** Column selection, lines 25-28. *)
Definition income_cols (df : dataframe) : list string :=
  filter (fun col => str_in "Donations" col && negb (str_in "Count" col)) (columns df).

Definition count_cols (df : dataframe) : list string :=
  filter (fun col => str_in "Donations Count" col) (columns df).

Definition interaction_col : string := "No. Interactions*".
Definition events_col : string := "No Events Attended".
Definition largest_gift_col : string := "Largest Gift".

Section Aggregation.
Context `{Pandas}.

(** [df[income_cols].replace(',', '', regex=True).apply(pd.to_numeric, errors='coerce')] *)
Definition income_data (df : dataframe) : result (list (list num)) :=
  frame <- getitems df (income_cols df) ;;
  Ok (map (map comma_numeric) frame).

(** [df[count_cols].apply(pd.to_numeric, errors='coerce')] *)
Definition gift_data (df : dataframe) : result (list (list num)) :=
  frame <- getitems df (count_cols df) ;;
  Ok (map (map to_numeric) frame).

(** [df[interaction_col].apply(pd.to_numeric, errors='coerce')] *)
Definition interactions_data (df : dataframe) : result (list num) :=
  s <- getitem df interaction_col ;;
  Ok (map to_numeric s).

(** [df[events_col].apply(pd.to_numeric, errors='coerce')] *)
Definition events_data (df : dataframe) : result (list num) :=
  s <- getitem df events_col ;;
  Ok (map to_numeric s).

(** Line 105, the series of the third chart; [None] without the column. *)
Definition largest_gift_data (df : dataframe) : result (option (list num)) :=
  if has_column df largest_gift_col then
    s <- getitem df largest_gift_col ;;
    Ok (Some (map comma_numeric s))
  else Ok None.

(** Lines 32-35. *)
Definition avg_income (df : dataframe) : result num :=
  frame <- income_data df ;;
  Ok (mean_of_means frame).

Definition avg_gifts (df : dataframe) : result num :=
  frame <- gift_data df ;;
  Ok (mean_of_means frame).

Definition avg_interactions (df : dataframe) : result num :=
  if has_column df interaction_col then
    s <- interactions_data df ;;
    Ok (mean s)
  else Ok (Fin 0).

Definition avg_events (df : dataframe) : result num :=
  if has_column df events_col then
    s <- events_data df ;;
    Ok (mean s)
  else Ok (Fin 0).

(** The body of the [try] block. *)
Definition averages (df : dataframe) : result metric_averages :=
  i <- avg_income df ;;
  g <- avg_gifts df ;;
  a <- avg_interactions df ;;
  e <- avg_events df ;;
  Ok {| m_income := i; m_gifts := g; m_interactions := a; m_events := e |}.

End Aggregation.

(** Scoring logic, lines 41-56. *)

Definition score_income (val : num) : result num :=
  q <- num_div val (Fin 1000000) ;;
  Ok (py_min (round1 (num_mul q (Fin 2))) (Fin 10)).

Definition score_pipeline (gifts asks : num) : result num :=
  if num_eqb asks (Fin 0) then Ok (Fin 0)
  else if num_gtb gifts asks then
    q <- num_div asks gifts ;;
    Ok (round1 (num_mul q (Fin 8)))
  else
    q <- num_div gifts asks ;;
    Ok (round1 (num_mul q (Fin 10))).

Definition score_team (fte : num) : result num :=
  Ok (py_min (round1 (num_mul fte (Fin 2))) (Fin 10)).

Definition score_integration (events : num) : result num :=
  q <- num_div events (Fin 2) ;;
  Ok (py_min (round1 q) (Fin 10)).

(** [round((income_score + pipeline_score + team_score + integration_score) / 4, 1)] *)
Definition composite_score (income_score pipeline_score team_score integration_score : num)
  : result num :=
  q <- num_div (num_add (num_add (num_add income_score pipeline_score) team_score)
                  integration_score) (Fin 4) ;;
  Ok (round1 q).

(** Lines 59-63: interactions stand in for asks; the team factor is the
    placeholder [1.0]. *)
Definition income_score (a : metric_averages) : result num :=
  score_income (m_income a).

Definition pipeline_score (a : metric_averages) : result num :=
  score_pipeline (m_gifts a) (m_interactions a).

Definition team_score : result num := score_team (Fin 1).

Definition integration_score (a : metric_averages) : result num :=
  score_integration (m_events a).

Definition scores (a : metric_averages) : result score_set :=
  i <- income_score a ;;
  p <- pipeline_score a ;;
  t <- team_score ;;
  g <- integration_score a ;;
  c <- composite_score i p t g ;;
  Ok {| s_income := i; s_pipeline := p; s_team := t; s_integration := g;
        s_composite := c |}.

(** One upload, up to and including the score panel (lines 18-83): the
    averages are computed under [try]/[except] (an exception there ends in
    [st.stop()]); the scores are not.  The charts drawn after the panel are
    not part of this function. *)
Definition run `{Pandas} (df : dataframe) : outcome :=
  match averages df with
  | Raise e => Stopped e
  | Ok a =>
      match scores a with
      | Ok s => Rendered s
      | Raise e => Crashed e
      end
  end.

(** Lines 68-76. *)
Definition color_box (label : string) (score : num) : box :=
  let color :=
    if num_leb score (Fin 3) then "#FF4B4B"
    else if num_ltb score (Fin 7) then "#FFA500"
    else "#4CAF50" in
  {| box_label := label; box_color := color; box_text := OutOfTen score |}.

(** Lines 78-83: the five boxes, in the order they are drawn. *)
Definition panel (s : score_set) : list box :=
  [color_box "Income Performance" (s_income s);
   color_box "Pipeline Quality" (s_pipeline s);
   color_box "Team & Systems (Placeholder)" (s_team s);
   color_box "Strategic Integration" (s_integration s);
   color_box "Overall Score" (s_composite s)].

End V1.

(** ** Version 2 ([philanthropy_csv_app_v2.py]) *)

Module V2.

(** Column selection, lines 25-28. *)
Definition income_cols (df : dataframe) : list string :=
  filter (fun col => str_in "Donations" col && negb (str_in "Count" col)) (columns df).

Definition count_cols (df : dataframe) : list string :=
  filter (fun col => str_in "Donations Count" col) (columns df).

Definition interaction_col : string := "No. Interactions*".
Definition events_col : string := "No Events Attended".
Definition largest_gift_col : string := "Largest Gift".

Section Aggregation.
Context `{Pandas}.

(** Lines 30-31, on one cell:
    [astype(str)], [str.replace] deleting every pound sign and comma, [str.strip()],
    then [pd.to_numeric(..., errors="coerce")]. *)
Definition clean_currency_cell (c : cell) : num :=
  to_numeric_str (strip (remove_chars is_pound_or_comma (astype_str c))).

Definition clean_currency (s : series) : list num :=
  map clean_currency_cell s.

(** [df[income_cols].apply(clean_currency)] *)
Definition income_data (df : dataframe) : result (list (list num)) :=
  frame <- getitems df (income_cols df) ;;
  Ok (map clean_currency frame).

(** [df[count_cols].apply(pd.to_numeric, errors="coerce")] *)
Definition gift_data (df : dataframe) : result (list (list num)) :=
  frame <- getitems df (count_cols df) ;;
  Ok (map (map to_numeric) frame).

(** Line 40: the cleaned interactions column, or an empty series. *)
Definition interactions_data (df : dataframe) : result (list num) :=
  if has_column df interaction_col then
    s <- getitem df interaction_col ;;
    Ok (clean_currency s)
  else Ok [].

(** [pd.to_numeric(df[events_col], errors="coerce")] *)
Definition events_data (df : dataframe) : result (list num) :=
  s <- getitem df events_col ;;
  Ok (map to_numeric s).

(** Lines 123-124, the series of the third chart; [None] without the
    column. *)
Definition largest_gift_data (df : dataframe) : result (option (list num)) :=
  if has_column df largest_gift_col then
    s <- getitem df largest_gift_col ;;
    Ok (Some (clean_currency s))
  else Ok None.

(** Lines 38-43. *)
Definition avg_income (df : dataframe) : result num :=
  frame <- income_data df ;;
  Ok (mean_of_means frame).

Definition avg_gifts (df : dataframe) : result num :=
  frame <- gift_data df ;;
  Ok (mean_of_means frame).

Definition avg_interactions (df : dataframe) : result num :=
  s <- interactions_data df ;;
  Ok (if negb (series_empty s) then mean s else Fin 0).

Definition avg_events (df : dataframe) : result num :=
  if has_column df events_col then
    s <- events_data df ;;
    Ok (mean s)
  else Ok (Fin 0).

(** The body of the [try] block. *)
Definition averages (df : dataframe) : result metric_averages :=
  i <- avg_income df ;;
  g <- avg_gifts df ;;
  a <- avg_interactions df ;;
  e <- avg_events df ;;
  Ok {| m_income := i; m_gifts := g; m_interactions := a; m_events := e |}.

End Aggregation.

(** Scoring logic, lines 56-71. *)

Definition score_income (val : num) : result num :=
  q <- num_div val (Fin 1000000) ;;
  Ok (py_min (round1 (num_mul q (Fin 2))) (Fin 10)).

Definition score_pipeline (gifts asks : num) : result num :=
  if num_eqb asks (Fin 0) then Ok (Fin 0)
  else if num_gtb gifts asks then
    q <- num_div asks gifts ;;
    Ok (round1 (num_mul q (Fin 8)))
  else
    q <- num_div gifts asks ;;
    Ok (round1 (num_mul q (Fin 10))).

Definition score_team (fte : num) : result num :=
  Ok (py_min (round1 (num_mul fte (Fin 2))) (Fin 10)).

Definition score_integration (events : num) : result num :=
  q <- num_div events (Fin 2) ;;
  Ok (py_min (round1 q) (Fin 10)).

(** [round((income_score + pipeline_score + team_score + integration_score) / 4, 1)] *)
Definition composite_score (income_score pipeline_score team_score integration_score : num)
  : result num :=
  q <- num_div (num_add (num_add (num_add income_score pipeline_score) team_score)
                  integration_score) (Fin 4) ;;
  Ok (round1 q).

(** Lines 73-77: a NaN average is scored 0 without calling the scorer. *)
Definition income_score (a : metric_averages) : result num :=
  if notna (m_income a) then score_income (m_income a) else Ok (Fin 0).

Definition pipeline_score (a : metric_averages) : result num :=
  if notna (m_gifts a) && notna (m_interactions a)
  then score_pipeline (m_gifts a) (m_interactions a)
  else Ok (Fin 0).

Definition team_score : result num := score_team (Fin 1).

Definition integration_score (a : metric_averages) : result num :=
  if notna (m_events a) then score_integration (m_events a) else Ok (Fin 0).

Definition scores (a : metric_averages) : result score_set :=
  i <- income_score a ;;
  p <- pipeline_score a ;;
  t <- team_score ;;
  g <- integration_score a ;;
  c <- composite_score i p t g ;;
  Ok {| s_income := i; s_pipeline := p; s_team := t; s_integration := g;
        s_composite := c |}.

(** One upload, up to and including the score panel (lines 18-102); the
    charts drawn after it are not part of this function. *)
Definition run `{Pandas} (df : dataframe) : outcome :=
  match averages df with
  | Raise e => Stopped e
  | Ok a =>
      match scores a with
      | Ok s => Rendered s
      | Raise e => Crashed e
      end
  end.

(** Lines 82-96. *)
Definition color_box (label : string) (score : num) : box :=
  if negb (notna score) then
    {| box_label := label; box_color := "#CCCCCC"; box_text := NotAvailable |}
  else if num_leb score (Fin 3) then
    {| box_label := label; box_color := "#FF4B4B"; box_text := OutOfTen score |}
  else if num_ltb score (Fin 7) then
    {| box_label := label; box_color := "#FFA500"; box_text := OutOfTen score |}
  else
    {| box_label := label; box_color := "#4CAF50"; box_text := OutOfTen score |}.

(** Lines 98-102. *)
Definition panel (s : score_set) : list box :=
  [color_box "Income Performance" (s_income s);
   color_box "Pipeline Quality" (s_pipeline s);
   color_box "Team & Systems (Placeholder)" (s_team s);
   color_box "Strategic Integration" (s_integration s);
   color_box "Overall Score" (s_composite s)].

End V2.

(** ** The Value Cleaner as the specification words it (section 4.2)

    "Strip the characters [pound sign] and [,] (any position, any count) and
    leading/trailing whitespace; if the remaining string parses as a decimal
    number, return it; otherwise return not available.  Empty cells are
    always not available." *)

Module Spec.
Section Cleaner.
Context `{Pandas}.

Definition strip_currency (s : string) : string :=
  strip (remove_chars (fun ch => Ascii.eqb ch pound || Ascii.eqb ch ",") s).

Definition value_cleaner (c : cell) : num :=
  match c with
  | CNaN => NaN
  | _ =>
      match float_of_string (strip_currency (astype_str c)) with
      | Some q => Fin q
      | None => NaN
      end
  end.

End Cleaner.
End Spec.

(** ** A reference instance of the text conversions

    Plain decimal literals: optional surrounding whitespace, an optional
    sign, digits with an optional fractional part; exponents, infinities and
    other spellings that pandas reads are not read here.  Used to run the
    model on concrete tables of plain decimals only. *)

Module Decimal.

Definition digit_of (c : ascii) : option Z :=
  let n := nat_of_ascii c in
  if ((48 <=? n) && (n <=? 57))%nat then Some (Z.of_nat (n - 48)) else None.

Fixpoint digits_value (acc : Z) (s : string) : option Z :=
  match s with
  | EmptyString => Some acc
  | String c s' =>
      match digit_of c with
      | Some d => digits_value (10 * acc + d) s'
      | None => None
      end
  end.

Fixpoint split_dot (s : string) : string * option string :=
  match s with
  | EmptyString => (EmptyString, None)
  | String c s' =>
      if Ascii.eqb c "." then (EmptyString, Some s')
      else let (i, f) := split_dot s' in (String c i, f)
  end.

Definition unsigned_decimal (s : string) : option Q :=
  match split_dot s with
  | (EmptyString, None) => None
  | (i, None) => option_map inject_Z (digits_value 0 i)
  | (i, Some f) =>
      match (i ++ f)%string with
      | EmptyString => None
      | digits =>
          option_map
            (fun m => Qred (Qmake m (Z.to_pos (10 ^ Z.of_nat (String.length f)))))
            (digits_value 0 digits)
      end
  end.

Definition parse (s : string) : option Q :=
  match strip s with
  | String "-" r => option_map Qopp (unsigned_decimal r)
  | String "+" r => unsigned_decimal r
  | t => unsigned_decimal t
  end.

Definition digit_char (d : Z) : ascii := ascii_of_nat (48 + Z.to_nat d).

Fixpoint int_digits (fuel : nat) (n : Z) (acc : string) : string :=
  match fuel with
  | O => acc
  | S fuel' =>
      let acc' := String (digit_char (n mod 10)) acc in
      if (n / 10 =? 0)%Z then acc' else int_digits fuel' (n / 10) acc'
  end.

Fixpoint frac_digits (fuel : nat) (r d : Z) : string :=
  match fuel with
  | O => EmptyString
  | S fuel' =>
      String (digit_char (10 * r / d))
        (if (10 * r mod d =? 0)%Z then EmptyString
         else frac_digits fuel' (10 * r mod d) d)
  end.

(** Sign, integer digits, a point, and at most 17 fractional digits. *)
Definition render (q : Q) : string :=
  let n := Z.abs (Qnum q) in
  let d := Zpos (Qden q) in
  ((if (Qnum q <? 0)%Z then "-" else EmptyString) ++
   int_digits (S (Z.to_nat (Z.log2 n))) (n / d) EmptyString ++ "." ++
   frac_digits 17 (n mod d) d)%string.

Definition pandas : Pandas :=
  {| float_of_string := parse;
     string_of_float := render;
     float_of_string_nan := eq_refl |}.

End Decimal.

(** ** Vocabulary of the statements *)

(** A score: a finite number between 0 and 10. *)
Definition in_0_10 (r : result num) : Prop :=
  exists q, r = Ok (Fin q) /\ (0 <= q <= 10)%Q.

(** [sub] occurs in [s]. *)
Definition Substring (sub s : string) : Prop :=
  exists pre post, s = (pre ++ sub ++ post)%string.

(** The character [c] occurs in [s]. *)
Definition CharIn (c : ascii) (s : string) : Prop :=
  In c (list_ascii_of_string s).

Definition leading_space (s : string) : bool :=
  match s with
  | EmptyString => false
  | String c _ => is_space c
  end.

Fixpoint trailing_space (s : string) : bool :=
  match s with
  | EmptyString => false
  | String c EmptyString => is_space c
  | String _ s' => trailing_space s'
  end.

(** A text free of pound signs and commas, with no whitespace at either
    end. *)
Definition clean_text (s : string) : Prop :=
  ~ CharIn pound s /\ ~ CharIn comma s /\
  leading_space s = false /\ trailing_space s = false.

(** Every cell of the column converts to NaN: the cells are empty or
    unparseable. *)
Definition all_nan (conv : cell -> num) (s : series) : Prop :=
  Forall (fun c => conv c = NaN) s.

(** Every column of the bucket [names] is such a column. *)
Definition bucket_all_nan (conv : cell -> num) (df : dataframe) (names : list string)
  : Prop :=
  forall n s, In n names -> getitem df n = Ok s -> all_nan conv s.


(** Equality of numbers up to the representation of a rational. *)
Definition num_equiv (x y : num) : Prop :=
  match x, y with
  | Fin a, Fin b => (a == b)%Q
  | NaN, NaN => True
  | _, _ => False
  end.

(** A number between two bounds. *)
Definition num_between (lo hi : Q) (x : num) : Prop :=
  match x with
  | Fin q => (lo <= q <= hi)%Q
  | NaN => False
  end.

(** NaN, or a number that is not negative. *)
Definition nonneg_or_nan (x : num) : Prop :=
  match x with
  | Fin q => (0 <= q)%Q
  | NaN => True
  end.

(** Every cell of the table converts to NaN or to a non-negative number. *)
Definition table_nonneg (conv : cell -> num) (df : dataframe) : Prop :=
  Forall (fun col => Forall (fun c => nonneg_or_nan (conv c)) (snd col)) df.

(** Tables for the examples. *)
Definition pound_table : dataframe :=
  [("Donations 2023", [CStr (String pound "5")]);
   ("No. Interactions*", [CStr "1,500"]);
   ("Largest Gift", [CStr (String pound "5")])].

Definition header_only_table : dataframe :=
  [("No. Interactions*", [])].

Definition section8_table : dataframe :=
  [("Donations 2023",
     [CStr (String pound "1,000,000"); CStr (String pound "2,000,000");
      CStr (String pound "3,000,000")]);
   ("Donations Count 2023", [CNum 10; CNum 20; CNum 30]);
   ("No. Interactions*", [CNum 15; CNum 15; CNum 15]);
   ("No Events Attended", [CNum 4; CNum 4; CNum 4])].

Definition unparseable_table : dataframe :=
  [("Donations 2023", [CStr "n/a"; CNaN]); ("No. Interactions*", [CStr "-"])].

Definition no_interactions_table : dataframe :=
  [("Donations 2023", [CStr "1,000,000"; CStr "3,000,000"]);
   ("Donations Count 2023", [CNum 10; CNum 30])].


Definition section8_averages : metric_averages :=
  {| m_income := Fin 2000000; m_gifts := Fin 20; m_interactions := Fin 15;
     m_events := Fin 4 |}.

Definition nan_income_averages : metric_averages :=
  {| m_income := NaN; m_gifts := Fin 20; m_interactions := Fin 15;
     m_events := Fin 4 |}.

(** * Properties *)

(** ** Rounding *)

Local Open Scope Q_scope.

Lemma round_half_even_comp (x y : Q) :
  x == y -> round_half_even x = round_half_even y.
Proof.
  intros E. unfold round_half_even.
  rewrite (Qfloor_comp _ _ E).
  assert (C : Qcompare (x - inject_Z (Qfloor y)) (1 # 2)
              = Qcompare (y - inject_Z (Qfloor y)) (1 # 2)).
  { apply Qcompare_comp; [rewrite E|]; reflexivity. }
  rewrite C. reflexivity.
Qed.

Lemma round_half_even_Z (n : Z) : round_half_even (inject_Z n) = n.
Proof.
  unfold round_half_even. rewrite Qfloor_Z.
  assert (L : inject_Z n - inject_Z n < 1 # 2) by lra.
  rewrite Qlt_alt in L. rewrite L. reflexivity.
Qed.

Lemma round_half_even_ge (k : Z) (x : Q) :
  inject_Z k <= x -> (k <= round_half_even x)%Z.
Proof.
  intros Hk. apply Qfloor_resp_le in Hk. rewrite Qfloor_Z in Hk.
  unfold round_half_even.
  destruct (Qcompare _ _); [destruct (Z.even _)| |]; lia.
Qed.

Lemma round_half_even_le (k : Z) (x : Q) :
  x <= inject_Z k -> (round_half_even x <= k)%Z.
Proof.
  intros Hk. unfold round_half_even.
  pose proof (Qfloor_le x) as Hf.
  assert (Hn : (Qfloor x <= k)%Z).
  { rewrite Zle_Qle. eapply Qle_trans; eassumption. }
  assert (Hlt : 0 < x - inject_Z (Qfloor x) -> (Qfloor x + 1 <= k)%Z).
  { intros P. apply Z.le_succ_l. rewrite Zlt_Qlt.
    apply Qlt_le_trans with x; [|exact Hk].
    clear - P. set (n := inject_Z (Qfloor x)) in *. clearbody n. lra. }
  destruct (Qcompare_spec (x - inject_Z (Qfloor x)) (1 # 2)) as [E|L|G].
  - destruct (Z.even _); [exact Hn|].
    apply Hlt. rewrite E. reflexivity.
  - exact Hn.
  - apply Hlt. apply Qlt_trans with (1 # 2); [reflexivity|exact G].
Qed.

(** [round1] keeps a value between two bounds that are themselves tenths. *)
Lemma round1_between (lo hi : Z) (a : Q) :
  inject_Z lo <= a * 10 <= inject_Z hi ->
  exists r, round1 (Fin a) = Fin r /\ inject_Z lo / 10 <= r <= inject_Z hi / 10.
Proof.
  intros [Hlo Hhi]. eexists. split; [reflexivity|].
  rewrite Qred_correct.
  apply round_half_even_ge in Hlo. apply round_half_even_le in Hhi.
  rewrite Zle_Qle in Hlo, Hhi.
  set (z := inject_Z (round_half_even (a * 10))) in *.
  split; apply Qle_shift_div_l; try reflexivity;
    unfold Qdiv; rewrite <- Qmult_assoc;
    setoid_replace (/ 10 * 10) with 1 by reflexivity; lra.
Qed.

Lemma round1_nonneg (a : Q) :
  0 <= a -> exists r, round1 (Fin a) = Fin r /\ 0 <= r.
Proof.
  intros Ha. eexists. split; [reflexivity|].
  rewrite Qred_correct.
  assert (H0 : inject_Z 0 <= a * 10) by (change (inject_Z 0) with 0; lra).
  apply round_half_even_ge in H0. rewrite Zle_Qle in H0.
  change (inject_Z 0) with 0 in H0.
  set (z := inject_Z (round_half_even (a * 10))) in *. clearbody z.
  apply Qle_shift_div_l; [reflexivity|]. lra.
Qed.

(** An exact tenth is left alone by [round1]. *)
Lemma round1_exact (a : Q) (k : Z) :
  a * 10 == inject_Z k -> round1 (Fin a) = Fin (Qred (inject_Z k / 10)).
Proof.
  intros E. unfold round1.
  rewrite (round_half_even_comp _ _ E), round_half_even_Z. reflexivity.
Qed.

Lemma py_min_10 (r : Q) :
  0 <= r -> exists q, py_min (Fin r) (Fin 10) = Fin q /\ 0 <= q <= 10.
Proof.
  intros Hr. unfold py_min, num_ltb.
  destruct (Qle_bool r 10) eqn:E; simpl.
  - apply Qle_bool_iff in E. exists r. auto.
  - exists 10. repeat split; lra.
Qed.

(** ** The scorer *)

Lemma score_income_value (val : Q) :
  V1.score_income (Fin val)
  = Ok (py_min (round1 (Fin (val / 1000000 * 2))) (Fin 10)).
Proof. reflexivity. Qed.

Lemma score_team_value (fte : Q) :
  V1.score_team (Fin fte) = Ok (py_min (round1 (Fin (fte * 2))) (Fin 10)).
Proof. reflexivity. Qed.

Lemma score_integration_value (events : Q) :
  V1.score_integration (Fin events)
  = Ok (py_min (round1 (Fin (events / 2))) (Fin 10)).
Proof. reflexivity. Qed.

(** The three branches of [score_pipeline]. *)
Lemma score_pipeline_zero (gifts : num) (asks : Q) :
  asks == 0 -> V1.score_pipeline gifts (Fin asks) = Ok (Fin 0).
Proof.
  intros E. unfold V1.score_pipeline, num_eqb.
  apply Qeq_bool_iff in E. rewrite E. reflexivity.
Qed.

Lemma score_pipeline_more (gifts asks : Q) :
  ~ asks == 0 -> asks < gifts ->
  V1.score_pipeline (Fin gifts) (Fin asks)
  = (q <- num_div (Fin asks) (Fin gifts) ;; Ok (round1 (num_mul q (Fin 8))))%result.
Proof.
  intros Hz Hlt. unfold V1.score_pipeline, num_eqb, num_gtb, num_ltb.
  destruct (Qeq_bool asks 0) eqn:E; [apply Qeq_bool_iff in E; contradiction|].
  destruct (Qle_bool gifts asks) eqn:L; [|reflexivity].
  apply Qle_bool_iff in L. lra.
Qed.

Lemma score_pipeline_else (gifts asks : Q) :
  ~ asks == 0 -> gifts <= asks ->
  V1.score_pipeline (Fin gifts) (Fin asks)
  = Ok (round1 (Fin (gifts / asks * 10))).
Proof.
  intros Hz Hle. unfold V1.score_pipeline, num_eqb, num_gtb, num_ltb, num_div.
  destruct (Qeq_bool asks 0) eqn:E; [apply Qeq_bool_iff in E; contradiction|].
  apply Qle_bool_iff in Hle. rewrite Hle. reflexivity.
Qed.

Lemma num_div_nonzero (a b : Q) :
  ~ b == 0 -> num_div (Fin a) (Fin b) = Ok (Fin (a / b)).
Proof.
  intros Hb. unfold num_div.
  destruct (Qeq_bool b 0) eqn:E; [apply Qeq_bool_iff in E; contradiction|].
  reflexivity.
Qed.

Lemma num_div_zero (a : num) (b : Q) :
  b == 0 -> num_div a (Fin b) = Raise ZeroDivisionError.
Proof.
  intros Hb. unfold num_div. apply Qeq_bool_iff in Hb. rewrite Hb. reflexivity.
Qed.

(** A quotient of ordered non-negative numbers lies in the unit interval. *)
Lemma unit_quotient (a b : Q) : 0 <= a -> a <= b -> 0 < b -> 0 <= a / b <= 1.
Proof.
  intros Ha Hab Hb. split.
  - apply Qle_shift_div_l; [exact Hb|]. lra.
  - apply Qle_shift_div_r; [exact Hb|]. lra.
Qed.

(** The two versions define the same scorer. *)
Lemma score_income_same : V2.score_income = V1.score_income.
Proof. reflexivity. Qed.

Lemma score_pipeline_same : V2.score_pipeline = V1.score_pipeline.
Proof. reflexivity. Qed.

Lemma score_team_same : V2.score_team = V1.score_team.
Proof. reflexivity. Qed.

Lemma score_integration_same : V2.score_integration = V1.score_integration.
Proof. reflexivity. Qed.

Lemma composite_score_same : V2.composite_score = V1.composite_score.
Proof. reflexivity. Qed.

Lemma clamped_in_0_10 (a : Q) :
  0 <= a -> in_0_10 (Ok (py_min (round1 (Fin a)) (Fin 10))).
Proof.
  intros Ha. destruct (round1_nonneg a Ha) as (r & -> & Hr).
  destruct (py_min_10 r Hr) as (q & -> & Hq). exists q. auto.
Qed.

Lemma score_income_in_0_10 (val : Q) :
  0 <= val -> in_0_10 (V1.score_income (Fin val)).
Proof.
  intros H. rewrite score_income_value. apply clamped_in_0_10.
  unfold Qdiv. change (/ 1000000) with (1 # 1000000). lra.
Qed.

Lemma score_team_in_0_10 (fte : Q) :
  0 <= fte -> in_0_10 (V1.score_team (Fin fte)).
Proof.
  intros H. rewrite score_team_value. apply clamped_in_0_10. lra.
Qed.

Lemma score_integration_in_0_10 (events : Q) :
  0 <= events -> in_0_10 (V1.score_integration (Fin events)).
Proof.
  intros H. rewrite score_integration_value. apply clamped_in_0_10.
  unfold Qdiv. change (/ 2) with (1 # 2). lra.
Qed.

Lemma round1_in_0_10 (a : Q) :
  0 <= a <= 10 -> in_0_10 (Ok (round1 (Fin a))).
Proof.
  intros [H0 H10].
  destruct (round1_between 0 100 a) as (r & -> & Hr).
  - change (inject_Z 0) with 0. change (inject_Z 100) with 100. lra.
  - exists r. split; [reflexivity|].
    change (inject_Z 0 / 10) with (0 / 10) in Hr.
    change (inject_Z 100 / 10) with (100 / 10) in Hr.
    setoid_replace (0 / 10) with 0 in Hr by reflexivity.
    setoid_replace (100 / 10) with 10 in Hr by reflexivity.
    exact Hr.
Qed.

Lemma score_pipeline_in_0_10 (gifts asks : Q) :
  0 <= gifts -> 0 <= asks -> in_0_10 (V1.score_pipeline (Fin gifts) (Fin asks)).
Proof.
  intros Hg Ha.
  destruct (Qeq_dec asks 0) as [Z|NZ].
  - rewrite (score_pipeline_zero _ _ Z). exists 0. split; [reflexivity|lra].
  - assert (Hpos : 0 < asks) by
      (destruct (Qlt_le_dec 0 asks) as [P|P]; [exact P|]; exfalso; apply NZ; lra).
    destruct (Qlt_le_dec asks gifts) as [More|Else].
    + rewrite (score_pipeline_more _ _ NZ More).
      assert (Gnz : ~ gifts == 0) by lra.
      rewrite (num_div_nonzero _ _ Gnz). cbn [bind num_mul].
      apply round1_in_0_10.
      destruct (unit_quotient asks gifts) as [L U]; [lra..|]. lra.
    + rewrite (score_pipeline_else _ _ NZ Else).
      apply round1_in_0_10.
      destruct (unit_quotient gifts asks) as [L U]; [lra..|]. lra.
Qed.

(** C1. Every sub-score of a finite, non-negative input lies in the closed
    interval from 0 to 10, in both versions: [score_income],
    [score_pipeline], [score_team] and [score_integration] each return a
    finite number [q] with [0 <= q <= 10].  For [score_pipeline] this holds
    with no clamp in the function: its quotient never exceeds 1. *)
Theorem sub_scores_in_0_10 (val gifts asks fte events : Q) :
  0 <= val -> 0 <= gifts -> 0 <= asks -> 0 <= fte -> 0 <= events ->
  (in_0_10 (V1.score_income (Fin val)) /\
   in_0_10 (V1.score_pipeline (Fin gifts) (Fin asks)) /\
   in_0_10 (V1.score_team (Fin fte)) /\
   in_0_10 (V1.score_integration (Fin events))) /\
  (in_0_10 (V2.score_income (Fin val)) /\
   in_0_10 (V2.score_pipeline (Fin gifts) (Fin asks)) /\
   in_0_10 (V2.score_team (Fin fte)) /\
   in_0_10 (V2.score_integration (Fin events))).
Proof.
  intros Hv Hg Ha Hf He.
  rewrite score_income_same, score_pipeline_same, score_team_same,
    score_integration_same.
  pose proof (score_income_in_0_10 val Hv).
  pose proof (score_pipeline_in_0_10 gifts asks Hg Ha).
  pose proof (score_team_in_0_10 fte Hf).
  pose proof (score_integration_in_0_10 events He).
  tauto.
Qed.

Lemma sub_scores_in_0_10_witness :
  (in_0_10 (V1.score_income (Fin 2000000)) /\
   in_0_10 (V1.score_pipeline (Fin 20) (Fin 15)) /\
   in_0_10 (V1.score_team (Fin 1)) /\
   in_0_10 (V1.score_integration (Fin 4))) /\
  (in_0_10 (V2.score_income (Fin 2000000)) /\
   in_0_10 (V2.score_pipeline (Fin 20) (Fin 15)) /\
   in_0_10 (V2.score_team (Fin 1)) /\
   in_0_10 (V2.score_integration (Fin 4))).
Proof.
  apply (sub_scores_in_0_10 2000000 20 15 1 4); discriminate.
Defined.

(** The table of section 8 does not give 13.3: 20 gifts against 15 asks is
    the [gifts > asks] branch. *)
Lemma pipeline_20_15_not_13_3 :
  ~ (exists q, V1.score_pipeline (Fin 20) (Fin 15) = Ok (Fin q) /\ q == 133 # 10).
Proof.
  intros (q & E & Hq). vm_compute in E.
  injection E as <-. discriminate Hq.
Qed.

(** C3 (amended). With average gift count 20 and average interactions 15 the
    comparison [gifts > asks] holds, so the pipeline score is
    [round(15/20*8, 1)], which is 6.0, in both versions. *)
Theorem pipeline_20_15 :
  num_gtb (Fin 20) (Fin 15) = true /\
  V1.score_pipeline (Fin 20) (Fin 15) = Ok (round1 (Fin (15 / 20 * 8))) /\
  V2.score_pipeline (Fin 20) (Fin 15) = Ok (round1 (Fin (15 / 20 * 8))) /\
  round1 (Fin (15 / 20 * 8)) = Fin 6.
Proof. repeat split; reflexivity. Qed.

(** C4. The four sub-score functions and the composite formula compute the
    same result in version 1 and version 2, on every input, NaN included. *)
Theorem scorer_versions_agree
  (val gifts asks fte events income pipeline team integration : num) :
  V1.score_income val = V2.score_income val /\
  V1.score_pipeline gifts asks = V2.score_pipeline gifts asks /\
  V1.score_team fte = V2.score_team fte /\
  V1.score_integration events = V2.score_integration events /\
  V1.composite_score income pipeline team integration
  = V2.composite_score income pipeline team integration.
Proof. repeat split; reflexivity. Qed.

(** The guarded call sites of version 2 turn a NaN average into the score 0;
    version 1 passes it to the scorer, which returns NaN. *)
Example nan_income_call_sites :
  V1.income_score {| m_income := NaN; m_gifts := NaN; m_interactions := NaN;
                     m_events := NaN |} = Ok NaN /\
  V2.income_score {| m_income := NaN; m_gifts := NaN; m_interactions := NaN;
                     m_events := NaN |} = Ok (Fin 0).
Proof. split; reflexivity. Qed.

(** C5. [score_pipeline(gifts, 0)] is 0 for every [gifts], NaN included; and
    on non-negative inputs no division of [score_pipeline] has a zero
    divisor: the call returns a value, it never raises
    [ZeroDivisionError].  In the [gifts > asks] branch the divisor [gifts]
    is above [asks >= 0]; the other branch divides by [asks], which the
    first test has shown to be nonzero. *)
Theorem score_pipeline_never_divides_by_zero :
  (forall (gifts : num) (asks : Q), asks == 0 ->
     V1.score_pipeline gifts (Fin asks) = Ok (Fin 0) /\
     V2.score_pipeline gifts (Fin asks) = Ok (Fin 0)) /\
  (forall gifts asks : Q, 0 <= gifts -> 0 <= asks ->
     (exists v, V1.score_pipeline (Fin gifts) (Fin asks) = Ok v /\
                V2.score_pipeline (Fin gifts) (Fin asks) = Ok v) /\
     (~ asks == 0 -> asks < gifts ->
        ~ gifts == 0 /\
        V1.score_pipeline (Fin gifts) (Fin asks)
        = Ok (round1 (Fin (asks / gifts * 8)))) /\
     (~ asks == 0 -> gifts <= asks ->
        V1.score_pipeline (Fin gifts) (Fin asks)
        = Ok (round1 (Fin (gifts / asks * 10))))).
Proof.
  split.
  - intros gifts asks Z. rewrite score_pipeline_same.
    split; apply score_pipeline_zero; exact Z.
  - intros gifts asks Hg Ha. split; [|split].
    + rewrite score_pipeline_same.
      destruct (score_pipeline_in_0_10 gifts asks Hg Ha) as (q & E & _).
      exists (Fin q). split; exact E.
    + intros NZ More.
      assert (Gnz : ~ gifts == 0) by lra.
      split; [exact Gnz|].
      rewrite (score_pipeline_more _ _ NZ More), (num_div_nonzero _ _ Gnz).
      reflexivity.
    + intros NZ Else. apply score_pipeline_else; assumption.
Qed.

Lemma score_pipeline_never_divides_by_zero_witness :
  (V1.score_pipeline (Fin 7) (Fin 0) = Ok (Fin 0) /\
   V2.score_pipeline (Fin 7) (Fin 0) = Ok (Fin 0)) /\
  (exists v, V1.score_pipeline (Fin 20) (Fin 10) = Ok v /\
             V2.score_pipeline (Fin 20) (Fin 10) = Ok v).
Proof.
  destruct score_pipeline_never_divides_by_zero as [Zero Safe].
  split.
  - apply (Zero (Fin 7) 0). reflexivity.
  - apply (Safe 20 10); discriminate.
Defined.

(** Outside the non-negative inputs the divisor can be zero. *)
Example score_pipeline_negative_asks :
  V1.score_pipeline (Fin 0) (Fin (-1)) = Raise ZeroDivisionError.
Proof. reflexivity. Qed.

Lemma num_gtb_spec (x y : Q) : num_gtb (Fin x) (Fin y) = true <-> y < x.
Proof.
  unfold num_gtb, num_ltb. rewrite negb_true_iff.
  split.
  - intros E. apply Qnot_le_lt. intros L. apply Qle_bool_iff in L. congruence.
  - intros L. destruct (Qle_bool x y) eqn:E; [|reflexivity].
    apply Qle_bool_iff in E. lra.
Qed.

(** C6. The comparison [gifts > asks] is strict: for equal, nonzero [gifts]
    and [asks] it is false, the [else] branch is taken, and [score_pipeline]
    returns [round(gifts/asks*10, 1)], which is 10; so at
    [gifts = asks = 10]. *)
Theorem score_pipeline_tie (gifts asks : Q) :
  gifts == asks -> ~ asks == 0 ->
  num_gtb (Fin gifts) (Fin asks) = false /\
  V1.score_pipeline (Fin gifts) (Fin asks) = Ok (round1 (Fin (gifts / asks * 10))) /\
  V2.score_pipeline (Fin gifts) (Fin asks) = Ok (round1 (Fin (gifts / asks * 10))) /\
  round1 (Fin (gifts / asks * 10)) = Fin 10.
Proof.
  intros E NZ.
  assert (Hle : gifts <= asks) by lra.
  split; [|split; [|split]].
  - destruct (num_gtb (Fin gifts) (Fin asks)) eqn:G; [|reflexivity].
    apply num_gtb_spec in G. lra.
  - apply score_pipeline_else; assumption.
  - rewrite score_pipeline_same. apply score_pipeline_else; assumption.
  - apply (round1_exact _ 100).
    rewrite E. unfold Qdiv. rewrite (Qmult_inv_r _ NZ). reflexivity.
Qed.

Lemma score_pipeline_tie_witness :
  num_gtb (Fin 10) (Fin 10) = false /\
  V1.score_pipeline (Fin 10) (Fin 10) = Ok (round1 (Fin (10 / 10 * 10))) /\
  V2.score_pipeline (Fin 10) (Fin 10) = Ok (round1 (Fin (10 / 10 * 10))) /\
  round1 (Fin (10 / 10 * 10)) = Fin 10.
Proof.
  apply (score_pipeline_tie 10 10); [reflexivity | discriminate].
Defined.

(** ** Strings *)

Local Open Scope string_scope.

Lemma startswith_spec (p s : string) :
  startswith p s = true <-> exists post, s = p ++ post.
Proof.
  revert s. induction p as [|a p IH]; intros s; simpl.
  - split; [exists s|]; reflexivity.
  - destruct s as [|b s].
    + split; [discriminate | intros [post E]; discriminate].
    + rewrite andb_true_iff, Ascii.eqb_eq, IH. split.
      * intros [-> [post ->]]. exists post. reflexivity.
      * intros [post E]. injection E as -> ->. eauto.
Qed.

Lemma str_in_spec (sub s : string) : str_in sub s = true <-> Substring sub s.
Proof.
  unfold Substring. induction s as [|a s IH]; simpl.
  - rewrite orb_false_r, startswith_spec. split.
    + intros [post E]. exists EmptyString, post. exact E.
    + intros (pre & post & E). destruct pre; simpl in E; [eauto|discriminate].
  - rewrite orb_true_iff, startswith_spec, IH. split.
    + intros [[post E] | (pre & post & E)].
      * exists EmptyString, post. exact E.
      * exists (String a pre), post. simpl. rewrite E. reflexivity.
    + intros (pre & post & E). destruct pre as [|b pre]; simpl in E.
      * left. eauto.
      * injection E as -> E. right. eauto.
Qed.

Lemma str_in_false_spec (sub s : string) :
  str_in sub s = false <-> ~ Substring sub s.
Proof.
  rewrite <- str_in_spec. destruct (str_in sub s); split; congruence.
Qed.

Lemma remove_chars_id (cls : ascii -> bool) (s : string) :
  (forall c, CharIn c s -> cls c = false) -> remove_chars cls s = s.
Proof.
  unfold CharIn. induction s as [|a s IH]; simpl; intros Hs; [reflexivity|].
  rewrite (Hs a) by auto. rewrite IH by auto. reflexivity.
Qed.

Lemma lstrip_id (s : string) : leading_space s = false -> lstrip s = s.
Proof. destruct s; simpl; [|intros ->]; reflexivity. Qed.

Lemma rstrip_id (s : string) : trailing_space s = false -> rstrip s = s.
Proof.
  induction s as [|a s IH]; [reflexivity|].
  destruct s as [|b s].
  - simpl. intros ->. reflexivity.
  - intros Ht. change (trailing_space (String b s) = false) in Ht.
    specialize (IH Ht).
    change (rstrip (String a (String b s)))
      with (match rstrip (String b s) with
            | EmptyString => if is_space a then EmptyString else String a EmptyString
            | r => String a r
            end).
    rewrite IH. reflexivity.
Qed.

Lemma strip_currency_id (s : string) :
  clean_text s -> strip (remove_chars is_pound_or_comma s) = s.
Proof.
  intros (Hp & Hc & Hl & Ht).
  rewrite remove_chars_id.
  - unfold strip. rewrite (lstrip_id _ Hl). apply rstrip_id, Ht.
  - intros c Hin. unfold is_pound_or_comma.
    destruct (Ascii.eqb c pound) eqn:P; [apply Ascii.eqb_eq in P; subst; contradiction|].
    destruct (Ascii.eqb c comma) eqn:C; [apply Ascii.eqb_eq in C; subst; contradiction|].
    reflexivity.
Qed.

(** ** Tables *)

Lemma has_column_spec (df : dataframe) (n : string) :
  has_column df n = true <-> In n (columns df).
Proof.
  unfold has_column. rewrite existsb_exists. split.
  - intros (x & Hin & E). apply String.eqb_eq in E. subst. exact Hin.
  - intros Hin. exists n. split; [exact Hin | apply String.eqb_refl].
Qed.

Lemma has_column_false (df : dataframe) (n : string) :
  ~ In n (columns df) -> has_column df n = false.
Proof.
  intros Hn. destruct (has_column df n) eqn:E; [|reflexivity].
  apply has_column_spec in E. contradiction.
Qed.

Lemma getitem_present (df : dataframe) (n : string) :
  In n (columns df) -> exists s, getitem df n = Ok s /\ In (n, s) df.
Proof.
  induction df as [|[m s] df IH]; simpl; [contradiction|].
  destruct (String.eqb n m) eqn:E.
  - apply String.eqb_eq in E. subst. eauto.
  - intros [->|Hin]; [rewrite String.eqb_refl in E; discriminate|].
    destruct (IH Hin) as (s' & G & I). eauto.
Qed.

Lemma getitems_present (df : dataframe) (names : list string) :
  (forall n, In n names -> In n (columns df)) ->
  exists frame, getitems df names = Ok frame /\
                Forall2 (fun n s => getitem df n = Ok s) names frame.
Proof.
  induction names as [|n names IH]; simpl; intros Hsub.
  - exists []. auto.
  - destruct (getitem_present df n) as (s & G & _); [auto|].
    destruct IH as (frame & Gs & F); [auto|].
    exists (s :: frame). rewrite G, Gs. auto.
Qed.

Lemma filter_columns (f : string -> bool) (df : dataframe) (n : string) :
  In n (filter f (columns df)) -> In n (columns df).
Proof. intros Hin. apply filter_In in Hin. tauto. Qed.

(** ** Means *)

Lemma mean_all_nan (xs : list num) : Forall (fun x => x = NaN) xs -> mean xs = NaN.
Proof.
  intros F. unfold mean.
  assert (D : dropna xs = []).
  { induction F as [|x xs -> _ IH]; simpl; [reflexivity | exact IH]. }
  rewrite D. reflexivity.
Qed.

Lemma mean_of_means_all_nan (frame : list (list num)) :
  Forall (fun xs => mean xs = NaN) frame -> mean_of_means frame = NaN.
Proof.
  intros F. unfold mean_of_means. apply mean_all_nan.
  induction F; simpl; auto.
Qed.

Lemma column_mean_nan (conv : cell -> num) (s : series) :
  all_nan conv s -> mean (map conv s) = NaN.
Proof.
  intros F. apply mean_all_nan. induction F; simpl; auto.
Qed.

Lemma bucket_mean_nan (conv : cell -> num) (df : dataframe) (names : list string) :
  (forall n, In n names -> In n (columns df)) ->
  bucket_all_nan conv df names ->
  exists frame, getitems df names = Ok frame /\
                mean_of_means (map (map conv) frame) = NaN.
Proof.
  intros Hsub Hall.
  destruct (getitems_present df names Hsub) as (frame & G & F).
  exists frame. split; [exact G|].
  apply mean_of_means_all_nan. clear G Hsub.
  induction F as [|n s names frame Gn F IH]; simpl; [constructor|].
  constructor.
  - apply column_mean_nan. apply (Hall n s); simpl; auto.
  - apply IH. intros n' s' Hin. apply Hall. simpl. auto.
Qed.

Lemma getitem_absent (df : dataframe) (n : string) :
  ~ In n (columns df) -> getitem df n = Raise (KeyError n).
Proof.
  induction df as [|[m s] df IH]; simpl; intros Hn; [reflexivity|].
  destruct (String.eqb n m) eqn:E.
  - apply String.eqb_eq in E. subst. tauto.
  - apply IH. tauto.
Qed.

Lemma getitem_has_column (df : dataframe) (n : string) (s : series) :
  getitem df n = Ok s -> has_column df n = true.
Proof.
  intros G. destruct (has_column df n) eqn:E; [reflexivity|].
  assert (Hn : ~ In n (columns df)).
  { intros Hin. apply has_column_spec in Hin. congruence. }
  rewrite (getitem_absent _ _ Hn) in G. discriminate.
Qed.

Lemma income_cols_spec (df : dataframe) (name : string) :
  In name (V1.income_cols df) <->
  In name (columns df) /\ Substring "Donations" name /\ ~ Substring "Count" name.
Proof.
  unfold V1.income_cols. rewrite filter_In, andb_true_iff, negb_true_iff.
  rewrite str_in_spec, str_in_false_spec. tauto.
Qed.

Lemma count_cols_spec (df : dataframe) (name : string) :
  In name (V1.count_cols df) <->
  In name (columns df) /\ Substring "Donations Count" name.
Proof.
  unfold V1.count_cols. rewrite filter_In, str_in_spec. tauto.
Qed.

Lemma exact_column_present (df : dataframe) (n : string) :
  In n (columns df) ->
  exists s, In (n, s) df /\ getitem df n = Ok s /\ has_column df n = true.
Proof.
  intros Hin. destruct (getitem_present df n Hin) as (s & G & I).
  exists s. split; [exact I|]. split; [exact G|]. apply has_column_spec, Hin.
Qed.

(** C8. The Column Selector, in both versions: the income bucket holds
    exactly the column names that contain "Donations" and do not contain
    "Count"; the gift-count bucket exactly those that contain "Donations
    Count"; interactions, events and largest gift are looked up under the
    exact names "No. Interactions*", "No Events Attended" and "Largest Gift".
    When the name is present, the code that reads the column (the
    interactions series and average, the events series and average, the
    largest-gift series) works on the column of the table with exactly that
    name; when it is absent, no column is read: version 2's interactions
    series is empty, the interactions and events averages are the default 0,
    and there is no largest-gift series. *)
Theorem column_selector `{Pandas} (df : dataframe) (name : string) :
  (In name (V1.income_cols df) <->
     In name (columns df) /\ Substring "Donations" name /\ ~ Substring "Count" name) /\
  (In name (V1.count_cols df) <->
     In name (columns df) /\ Substring "Donations Count" name) /\
  (In name (V2.income_cols df) <->
     In name (columns df) /\ Substring "Donations" name /\ ~ Substring "Count" name) /\
  (In name (V2.count_cols df) <->
     In name (columns df) /\ Substring "Donations Count" name) /\
  (V1.interaction_col = "No. Interactions*" /\ V1.events_col = "No Events Attended" /\
   V1.largest_gift_col = "Largest Gift") /\
  (V2.interaction_col = "No. Interactions*" /\ V2.events_col = "No Events Attended" /\
   V2.largest_gift_col = "Largest Gift") /\
  (In name (columns df) ->
     has_column df name = true /\ exists s, getitem df name = Ok s /\ In (name, s) df) /\
  (~ In name (columns df) ->
     has_column df name = false /\ getitem df name = Raise (KeyError name)) /\
  (In "No. Interactions*" (columns df) ->
     exists s, In ("No. Interactions*", s) df /\
       getitem df "No. Interactions*" = Ok s /\
       V1.interactions_data df = Ok (map to_numeric s) /\
       V1.avg_interactions df = Ok (mean (map to_numeric s)) /\
       V2.interactions_data df = Ok (V2.clean_currency s)) /\
  (~ In "No. Interactions*" (columns df) ->
     V1.avg_interactions df = Ok (Fin 0) /\ V2.interactions_data df = Ok []) /\
  (In "No Events Attended" (columns df) ->
     exists s, In ("No Events Attended", s) df /\
       getitem df "No Events Attended" = Ok s /\
       V1.events_data df = Ok (map to_numeric s) /\
       V1.avg_events df = Ok (mean (map to_numeric s)) /\
       V2.events_data df = Ok (map to_numeric s) /\
       V2.avg_events df = Ok (mean (map to_numeric s))) /\
  (~ In "No Events Attended" (columns df) ->
     V1.avg_events df = Ok (Fin 0) /\ V2.avg_events df = Ok (Fin 0)) /\
  (In "Largest Gift" (columns df) ->
     exists s, In ("Largest Gift", s) df /\
       getitem df "Largest Gift" = Ok s /\
       V1.largest_gift_data df = Ok (Some (map comma_numeric s)) /\
       V2.largest_gift_data df = Ok (Some (V2.clean_currency s))) /\
  (~ In "Largest Gift" (columns df) ->
     V1.largest_gift_data df = Ok None /\ V2.largest_gift_data df = Ok None).
Proof.
  split; [apply income_cols_spec|].
  split; [apply count_cols_spec|].
  split; [apply income_cols_spec|].
  split; [apply count_cols_spec|].
  split; [repeat split|]. split; [repeat split|].
  split.
  { intros Hin. split; [apply has_column_spec, Hin | apply getitem_present, Hin]. }
  split.
  { intros Hn. split; [apply has_column_false, Hn | apply getitem_absent, Hn]. }
  split.
  { intros Hin. destruct (exact_column_present df _ Hin) as (s & I & G & C).
    exists s. split; [exact I|]. split; [exact G|].
    unfold V1.avg_interactions, V1.interactions_data, V2.interactions_data.
    change V1.interaction_col with "No. Interactions*"%string.
    change V2.interaction_col with "No. Interactions*"%string.
    rewrite C, G. repeat split; reflexivity. }
  split.
  { intros Hn. pose proof (has_column_false df _ Hn) as C.
    unfold V1.avg_interactions, V2.interactions_data.
    change V1.interaction_col with "No. Interactions*"%string.
    change V2.interaction_col with "No. Interactions*"%string.
    rewrite C. split; reflexivity. }
  split.
  { intros Hin. destruct (exact_column_present df _ Hin) as (s & I & G & C).
    exists s. split; [exact I|]. split; [exact G|].
    unfold V1.avg_events, V1.events_data, V2.avg_events, V2.events_data.
    change V1.events_col with "No Events Attended"%string.
    change V2.events_col with "No Events Attended"%string.
    rewrite C, G. repeat split; reflexivity. }
  split.
  { intros Hn. pose proof (has_column_false df _ Hn) as C.
    unfold V1.avg_events, V2.avg_events.
    change V1.events_col with "No Events Attended"%string.
    change V2.events_col with "No Events Attended"%string.
    rewrite C. split; reflexivity. }
  split.
  { intros Hin. destruct (exact_column_present df _ Hin) as (s & I & G & C).
    exists s. split; [exact I|]. split; [exact G|].
    unfold V1.largest_gift_data, V2.largest_gift_data.
    change V1.largest_gift_col with "Largest Gift"%string.
    change V2.largest_gift_col with "Largest Gift"%string.
    rewrite C, G. split; reflexivity. }
  intros Hn. pose proof (has_column_false df _ Hn) as C.
  unfold V1.largest_gift_data, V2.largest_gift_data.
  change V1.largest_gift_col with "Largest Gift"%string.
  change V2.largest_gift_col with "Largest Gift"%string.
  rewrite C. split; reflexivity.
Qed.

Lemma column_selector_witness :
  exists s, In ("No. Interactions*", s) section8_table /\
    getitem section8_table "No. Interactions*" = Ok s /\
    @V1.interactions_data Decimal.pandas section8_table
    = Ok (map (@to_numeric Decimal.pandas) s) /\
    @V1.avg_interactions Decimal.pandas section8_table
    = Ok (mean (map (@to_numeric Decimal.pandas) s)) /\
    @V2.interactions_data Decimal.pandas section8_table
    = Ok (@V2.clean_currency Decimal.pandas s).
Proof.
  destruct (@column_selector Decimal.pandas section8_table "No. Interactions*")
    as (_ & _ & _ & _ & _ & _ & _ & _ & Present & _).
  apply Present. simpl. tauto.
Defined.

(** The exact names are compared as they stand: a table whose interactions
    column lacks the asterisk has none for the selector. *)
Example near_miss_is_not_selected :
  @V2.interactions_data Decimal.pandas [("No. Interactions", [CNum 15])] = Ok [] /\
  @V1.avg_interactions Decimal.pandas [("No. Interactions", [CNum 15])] = Ok (Fin 0) /\
  @V2.interactions_data Decimal.pandas [("No. Interactions*", [CNum 15])] = Ok [Fin 15].
Proof. repeat split; reflexivity. Qed.

Example section8_buckets :
  V1.income_cols section8_table = ["Donations 2023"] /\
  V1.count_cols section8_table = ["Donations Count 2023"].
Proof. split; reflexivity. Qed.

(** ** The cleaner *)

Lemma clean_currency_cell_spec `{Pandas} (c : cell) :
  V2.clean_currency_cell c = Spec.value_cleaner c.
Proof.
  destruct c; try reflexivity.
  unfold V2.clean_currency_cell, to_numeric_str. simpl astype_str.
  change (strip (remove_chars is_pound_or_comma "nan")) with "nan".
  rewrite float_of_string_nan. reflexivity.
Qed.

Lemma clean_currency_nan `{Pandas} : V2.clean_currency_cell CNaN = NaN.
Proof. rewrite clean_currency_cell_spec. reflexivity. Qed.

(** C9. On a value whose text has no pound sign, no comma and no whitespace
    at either end, [clean_currency] equals parsing that text directly; for a
    string cell or an empty cell this is [pd.to_numeric] of the cell
    itself. *)
Theorem clean_currency_on_clean_input `{Pandas} (c : cell) :
  clean_text (astype_str c) ->
  V2.clean_currency_cell c = to_numeric_str (astype_str c) /\
  V2.clean_currency [c] = [to_numeric_str (astype_str c)] /\
  ((forall q, c <> CNum q) -> V2.clean_currency_cell c = to_numeric c).
Proof.
  intros Hclean.
  assert (E : V2.clean_currency_cell c = to_numeric_str (astype_str c)).
  { unfold V2.clean_currency_cell. rewrite (strip_currency_id _ Hclean). reflexivity. }
  split; [exact E|]. split; [simpl; rewrite E; reflexivity|].
  intros Hnum. destruct c as [q|s|].
  - destruct (Hnum q). reflexivity.
  - exact E.
  - apply clean_currency_nan.
Qed.

Lemma clean_text_1500 : clean_text "1500.50".
Proof.
  unfold clean_text, CharIn.
  repeat split; try reflexivity;
    simpl; intros Hin; repeat (destruct Hin as [Hin|Hin]; [discriminate Hin|]);
    exact Hin.
Defined.

Lemma clean_currency_on_clean_input_witness :
  @V2.clean_currency_cell Decimal.pandas (CStr "1500.50")
  = @to_numeric Decimal.pandas (CStr "1500.50").
Proof.
  apply (@clean_currency_on_clean_input Decimal.pandas (CStr "1500.50") clean_text_1500).
  intros q. discriminate.
Defined.

Example clean_currency_1500 :
  @V2.clean_currency_cell Decimal.pandas (CStr "1500.50") = Fin (3001 # 2).
Proof. reflexivity. Qed.

Example clean_currency_pound :
  @V2.clean_currency_cell Decimal.pandas (CStr (String pound "1,234,567 ")) = Fin 1234567.
Proof. reflexivity. Qed.

(** Version 1 leaves the pound sign in place, and parses interactions
    without removing anything. *)
Example v1_values_on_pound_table :
  @V1.income_data Decimal.pandas pound_table = Ok [[NaN]] /\
  @V1.interactions_data Decimal.pandas pound_table = Ok [NaN] /\
  @V1.largest_gift_data Decimal.pandas pound_table = Ok (Some [NaN]) /\
  @Spec.value_cleaner Decimal.pandas (CStr (String pound "5")) = Fin 5 /\
  @Spec.value_cleaner Decimal.pandas (CStr "1,500") = Fin 1500.
Proof. repeat split; reflexivity. Qed.

Lemma v1_does_not_apply_value_cleaner :
  @V1.income_data Decimal.pandas pound_table
  <> (frame <- getitems pound_table (V1.income_cols pound_table) ;;
      Ok (map (map (@Spec.value_cleaner Decimal.pandas)) frame))%result /\
  @V1.interactions_data Decimal.pandas pound_table
  <> (s <- getitem pound_table V1.interaction_col ;;
      Ok (map (@Spec.value_cleaner Decimal.pandas) s))%result.
Proof. split; intros E; vm_compute in E; discriminate E. Qed.

(** C2 (amended). Version 2 applies the Value Cleaner rule to the income
    columns, the interactions column and the largest-gift column, and parses
    the gift-count and events columns as plain numbers.  Version 1 parses
    gift counts, events and interactions as plain numbers, and removes
    commas, nothing else, from the strings of the income and largest-gift
    columns before parsing them. *)
Theorem value_cleaner_application `{Pandas} (df : dataframe) :
  (forall c, V2.clean_currency_cell c = Spec.value_cleaner c) /\
  V2.income_data df
  = (frame <- getitems df (V2.income_cols df) ;;
     Ok (map (map Spec.value_cleaner) frame))%result /\
  V2.interactions_data df
  = (if has_column df V2.interaction_col
     then (s <- getitem df V2.interaction_col ;; Ok (map Spec.value_cleaner s))%result
     else Ok []) /\
  V2.largest_gift_data df
  = (if has_column df V2.largest_gift_col
     then (s <- getitem df V2.largest_gift_col ;;
           Ok (Some (map Spec.value_cleaner s)))%result
     else Ok None) /\
  V2.gift_data df
  = (frame <- getitems df (V2.count_cols df) ;; Ok (map (map to_numeric) frame))%result /\
  V2.events_data df
  = (s <- getitem df V2.events_col ;; Ok (map to_numeric s))%result /\
  V1.gift_data df
  = (frame <- getitems df (V1.count_cols df) ;; Ok (map (map to_numeric) frame))%result /\
  V1.events_data df
  = (s <- getitem df V1.events_col ;; Ok (map to_numeric s))%result /\
  V1.interactions_data df
  = (s <- getitem df V1.interaction_col ;; Ok (map to_numeric s))%result /\
  V1.income_data df
  = (frame <- getitems df (V1.income_cols df) ;;
     Ok (map (map comma_numeric) frame))%result /\
  V1.largest_gift_data df
  = (if has_column df V1.largest_gift_col
     then (s <- getitem df V1.largest_gift_col ;; Ok (Some (map comma_numeric s)))%result
     else Ok None) /\
  (forall s, comma_numeric (CStr s) = to_numeric_str (remove_chars is_comma s)) /\
  (forall q, comma_numeric (CNum q) = Fin q) /\
  comma_numeric CNaN = NaN.
Proof.
  assert (M : forall s, V2.clean_currency s = map Spec.value_cleaner s).
  { intros s. apply map_ext. apply clean_currency_cell_spec. }
  split; [apply clean_currency_cell_spec|].
  split.
  { unfold V2.income_data. destruct (getitems df (V2.income_cols df)); [|reflexivity].
    simpl. f_equal. apply map_ext. exact M. }
  split.
  { unfold V2.interactions_data. destruct (has_column df V2.interaction_col); [|reflexivity].
    destruct (getitem df V2.interaction_col); [|reflexivity].
    simpl. rewrite M. reflexivity. }
  split.
  { unfold V2.largest_gift_data. destruct (has_column df V2.largest_gift_col); [|reflexivity].
    destruct (getitem df V2.largest_gift_col); [|reflexivity].
    simpl. rewrite M. reflexivity. }
  repeat split; reflexivity.
Qed.

(** ** The averages *)

Section Averages.
Context `{Pandas}.

Lemma v1_avg_income_ok (df : dataframe) : exists x, V1.avg_income df = Ok x.
Proof.
  unfold V1.avg_income, V1.income_data.
  destruct (getitems_present df (V1.income_cols df)) as (frame & G & _).
  { intros n. apply filter_columns. }
  rewrite G. simpl. eauto.
Qed.

Lemma v1_avg_gifts_ok (df : dataframe) : exists x, V1.avg_gifts df = Ok x.
Proof.
  unfold V1.avg_gifts, V1.gift_data.
  destruct (getitems_present df (V1.count_cols df)) as (frame & G & _).
  { intros n. apply filter_columns. }
  rewrite G. simpl. eauto.
Qed.

Lemma v1_avg_interactions_ok (df : dataframe) : exists x, V1.avg_interactions df = Ok x.
Proof.
  unfold V1.avg_interactions, V1.interactions_data.
  destruct (has_column df V1.interaction_col) eqn:E; [|eauto].
  apply has_column_spec in E. destruct (getitem_present _ _ E) as (s & G & _).
  rewrite G. simpl. eauto.
Qed.

Lemma v1_avg_events_ok (df : dataframe) : exists x, V1.avg_events df = Ok x.
Proof.
  unfold V1.avg_events, V1.events_data.
  destruct (has_column df V1.events_col) eqn:E; [|eauto].
  apply has_column_spec in E. destruct (getitem_present _ _ E) as (s & G & _).
  rewrite G. simpl. eauto.
Qed.

Lemma v1_averages_ok (df : dataframe) :
  exists i g a e,
    V1.avg_income df = Ok i /\ V1.avg_gifts df = Ok g /\
    V1.avg_interactions df = Ok a /\ V1.avg_events df = Ok e /\
    V1.averages df
    = Ok {| m_income := i; m_gifts := g; m_interactions := a; m_events := e |}.
Proof.
  destruct (v1_avg_income_ok df) as [i Hi], (v1_avg_gifts_ok df) as [g Hg],
    (v1_avg_interactions_ok df) as [a Ha], (v1_avg_events_ok df) as [e He].
  exists i, g, a, e. unfold V1.averages. rewrite Hi, Hg, Ha, He. auto.
Qed.

Lemma v2_avg_income_ok (df : dataframe) : exists x, V2.avg_income df = Ok x.
Proof.
  unfold V2.avg_income, V2.income_data.
  destruct (getitems_present df (V2.income_cols df)) as (frame & G & _).
  { intros n. apply filter_columns. }
  rewrite G. simpl. eauto.
Qed.

Lemma v2_avg_gifts_ok (df : dataframe) : exists x, V2.avg_gifts df = Ok x.
Proof.
  unfold V2.avg_gifts, V2.gift_data.
  destruct (getitems_present df (V2.count_cols df)) as (frame & G & _).
  { intros n. apply filter_columns. }
  rewrite G. simpl. eauto.
Qed.

Lemma v2_avg_interactions_ok (df : dataframe) : exists x, V2.avg_interactions df = Ok x.
Proof.
  unfold V2.avg_interactions, V2.interactions_data.
  destruct (has_column df V2.interaction_col) eqn:E; [|simpl; eauto].
  apply has_column_spec in E. destruct (getitem_present _ _ E) as (s & G & _).
  rewrite G. simpl. eauto.
Qed.

Lemma v2_avg_events_ok (df : dataframe) : exists x, V2.avg_events df = Ok x.
Proof.
  unfold V2.avg_events, V2.events_data.
  destruct (has_column df V2.events_col) eqn:E; [|eauto].
  apply has_column_spec in E. destruct (getitem_present _ _ E) as (s & G & _).
  rewrite G. simpl. eauto.
Qed.

Lemma v2_averages_ok (df : dataframe) : exists a, V2.averages df = Ok a.
Proof.
  destruct (v2_avg_income_ok df) as [i Hi], (v2_avg_gifts_ok df) as [g Hg],
    (v2_avg_interactions_ok df) as [a Ha], (v2_avg_events_ok df) as [e He].
  unfold V2.averages. rewrite Hi, Hg, Ha, He. simpl. eauto.
Qed.

Lemma bucket_average_nan (conv : cell -> num) (f : string -> bool) (df : dataframe) :
  bucket_all_nan conv df (filter f (columns df)) ->
  (frame <- (frame <- getitems df (filter f (columns df)) ;;
             Ok (map (map conv) frame)) ;;
   Ok (mean_of_means frame))%result = Ok NaN.
Proof.
  intros Hall.
  destruct (bucket_mean_nan conv df (filter f (columns df))) as (frame & G & M).
  { intros n. apply filter_columns. }
  { exact Hall. }
  rewrite G. simpl. rewrite M. reflexivity.
Qed.

Lemma series_empty_map {A B : Type} (g : A -> B) (s : list A) :
  series_empty (map g s) = series_empty s.
Proof. destruct s; reflexivity. Qed.

End Averages.

(** In version 2 an interactions column without rows averages to 0, not to
    NaN, although none of its cells parses. *)
Lemma v2_zero_row_interactions_is_zero :
  getitem header_only_table V2.interaction_col = Ok [] /\
  bucket_all_nan (@V2.clean_currency_cell Decimal.pandas) header_only_table
    [V2.interaction_col] /\
  @V2.avg_interactions Decimal.pandas header_only_table = Ok (Fin 0) /\
  @V2.avg_interactions Decimal.pandas header_only_table <> Ok NaN.
Proof.
  split; [reflexivity|]. split; [|split; [reflexivity|discriminate]].
  intros n s Hin G. destruct Hin as [<-|[]].
  vm_compute in G. injection G as <-. constructor.
Qed.

(** C7 (amended). A column whose cells are all empty or unparseable has a
    NaN column mean, and a bucket made entirely of such columns has a NaN
    average: this holds for the income and gift-count buckets of both
    versions, for the events column of both versions and the interactions
    column of version 1 when the column is present, and for the interactions
    column of version 2 when it is present and has at least one row (without
    rows its average is 0).  Computing the averages never raises: the [try]
    block of either version always ends with its four averages. *)
Theorem unparseable_columns_average_to_nan `{Pandas} (df : dataframe) :
  (to_numeric CNaN = NaN /\ comma_numeric CNaN = NaN /\
   V2.clean_currency_cell CNaN = NaN) /\
  (forall conv s, all_nan conv s -> mean (map conv s) = NaN) /\
  (forall frame, Forall (fun xs => mean xs = NaN) frame -> mean_of_means frame = NaN) /\
  ((exists a, V1.averages df = Ok a) /\ (exists a, V2.averages df = Ok a)) /\
  (bucket_all_nan comma_numeric df (V1.income_cols df) -> V1.avg_income df = Ok NaN) /\
  (bucket_all_nan to_numeric df (V1.count_cols df) -> V1.avg_gifts df = Ok NaN) /\
  (bucket_all_nan V2.clean_currency_cell df (V2.income_cols df) ->
     V2.avg_income df = Ok NaN) /\
  (bucket_all_nan to_numeric df (V2.count_cols df) -> V2.avg_gifts df = Ok NaN) /\
  (forall s, getitem df V1.interaction_col = Ok s -> all_nan to_numeric s ->
     V1.avg_interactions df = Ok NaN) /\
  (forall s, getitem df V1.events_col = Ok s -> all_nan to_numeric s ->
     V1.avg_events df = Ok NaN) /\
  (forall s, getitem df V2.events_col = Ok s -> all_nan to_numeric s ->
     V2.avg_events df = Ok NaN) /\
  (forall s, getitem df V2.interaction_col = Ok s ->
     all_nan V2.clean_currency_cell s ->
     V2.avg_interactions df = Ok (if series_empty s then Fin 0 else NaN)).
Proof.
  split; [repeat split; apply clean_currency_nan|].
  split; [apply column_mean_nan|].
  split; [apply mean_of_means_all_nan|].
  split.
  { split; [|apply v2_averages_ok].
    destruct (v1_averages_ok df) as (i & g & a & e & _ & _ & _ & _ & E). eauto. }
  split; [apply bucket_average_nan|].
  split; [apply bucket_average_nan|].
  split; [apply (bucket_average_nan V2.clean_currency_cell)|].
  split; [apply bucket_average_nan|].
  split.
  { intros s G F. unfold V1.avg_interactions, V1.interactions_data.
    rewrite (getitem_has_column _ _ _ G), G. simpl.
    rewrite (column_mean_nan _ _ F). reflexivity. }
  split.
  { intros s G F. unfold V1.avg_events, V1.events_data.
    rewrite (getitem_has_column _ _ _ G), G. simpl.
    rewrite (column_mean_nan _ _ F). reflexivity. }
  split.
  { intros s G F. unfold V2.avg_events, V2.events_data.
    rewrite (getitem_has_column _ _ _ G), G. simpl.
    rewrite (column_mean_nan _ _ F). reflexivity. }
  intros s G F. unfold V2.avg_interactions, V2.interactions_data.
  rewrite (getitem_has_column _ _ _ G), G. simpl.
  unfold V2.clean_currency. rewrite series_empty_map.
  destruct s; simpl; [reflexivity|].
  f_equal. apply (column_mean_nan V2.clean_currency_cell (c :: s) F).
Qed.

Lemma unparseable_columns_average_to_nan_witness :
  @V1.avg_income Decimal.pandas unparseable_table = Ok NaN.
Proof.
  destruct (@unparseable_columns_average_to_nan Decimal.pandas unparseable_table)
    as (_ & _ & _ & _ & Income & _).
  apply Income.
  intros n s Hin G. vm_compute in Hin. destruct Hin as [<-|[]].
  vm_compute in G. injection G as <-.
  repeat constructor.
Defined.

Example unparseable_table_averages :
  @V1.averages Decimal.pandas unparseable_table
  = Ok {| m_income := NaN; m_gifts := NaN; m_interactions := NaN; m_events := Fin 0 |} /\
  @V2.averages Decimal.pandas unparseable_table
  = Ok {| m_income := NaN; m_gifts := NaN; m_interactions := NaN; m_events := Fin 0 |}.
Proof. split; reflexivity. Qed.

(** ** Version 1 without an interactions column *)

Lemma score_income_total (v : num) : exists r, V1.score_income v = Ok r.
Proof. destruct v; eexists; reflexivity. Qed.

Lemma score_integration_total (v : num) : exists r, V1.score_integration v = Ok r.
Proof. destruct v; eexists; reflexivity. Qed.

Lemma composite_score_total (i p t g : num) :
  exists r, V1.composite_score i p t g = Ok r.
Proof. destruct i, p, t, g; eexists; reflexivity. Qed.

Lemma score_pipeline_zero_asks (gifts : num) :
  V1.score_pipeline gifts (Fin 0) = Ok (Fin 0).
Proof. apply score_pipeline_zero. reflexivity. Qed.

(** C10. In version 1, a table without a column named exactly
    "No. Interactions*" has [avg_interactions = 0]; the pipeline score is then
    0 by the [asks == 0] branch of [score_pipeline], whatever the gift-count
    columns hold, and the run renders its scores with that pipeline score. *)
Theorem v1_missing_interactions_scores_zero `{Pandas} (df : dataframe) :
  ~ In "No. Interactions*" (columns df) ->
  V1.avg_interactions df = Ok (Fin 0) /\
  exists a s,
    V1.averages df = Ok a /\ m_interactions a = Fin 0 /\
    V1.pipeline_score a = V1.score_pipeline (m_gifts a) (Fin 0) /\
    V1.pipeline_score a = Ok (Fin 0) /\
    V1.run df = Rendered s /\ s_pipeline s = Fin 0.
Proof.
  intros Hn.
  assert (A : V1.avg_interactions df = Ok (Fin 0)).
  { unfold V1.avg_interactions.
    rewrite (has_column_false df V1.interaction_col Hn). reflexivity. }
  split; [exact A|].
  destruct (v1_averages_ok df) as (i & g & a & e & _ & _ & Ha & _ & E).
  rewrite A in Ha. injection Ha as <-.
  set (avgs := {| m_income := i; m_gifts := g; m_interactions := Fin 0; m_events := e |}) in *.
  assert (P : V1.pipeline_score avgs = Ok (Fin 0)) by apply score_pipeline_zero_asks.
  destruct (score_income_total i) as [si Si].
  destruct (score_integration_total e) as [sg Sg].
  destruct (composite_score_total si (Fin 0) (Fin 2) sg) as [sc Sc].
  exists avgs.
  exists {| s_income := si; s_pipeline := Fin 0; s_team := Fin 2;
            s_integration := sg; s_composite := sc |}.
  split; [exact E|]. split; [reflexivity|]. split; [reflexivity|]. split; [exact P|].
  split; [|reflexivity].
  unfold V1.run. rewrite E. unfold V1.scores.
  unfold V1.income_score, V1.integration_score. rewrite P.
  change (m_income avgs) with i. change (m_events avgs) with e.
  rewrite Si, Sg.
  change V1.team_score with (@Ok num (Fin 2)).
  cbn [bind]. rewrite Sc. reflexivity.
Qed.

Lemma v1_missing_interactions_scores_zero_witness :
  @V1.avg_interactions Decimal.pandas no_interactions_table = Ok (Fin 0).
Proof.
  apply (@v1_missing_interactions_scores_zero Decimal.pandas no_interactions_table).
  simpl. intros [E|[E|[]]]; discriminate E.
Defined.

Example no_interactions_run :
  @V1.run Decimal.pandas no_interactions_table
  = Rendered {| s_income := Fin 4; s_pipeline := Fin 0; s_team := Fin 2;
                s_integration := Fin 0; s_composite := Fin (3 # 2) |}.
Proof. reflexivity. Qed.

(** The table of section 8 of the specification. *)
Example section8_run_v2 :
  @V2.run Decimal.pandas section8_table
  = Rendered {| s_income := Fin 4; s_pipeline := Fin 6; s_team := Fin 2;
                s_integration := Fin 2; s_composite := Fin (7 # 2) |}.
Proof. reflexivity. Qed.

(** * Further properties of the scorer *)

Local Open Scope Q_scope.

Lemma round_half_even_floor (x : Q) :
  (Qfloor x <= round_half_even x <= Qfloor x + 1)%Z.
Proof.
  unfold round_half_even.
  destruct (Qcompare _ _); [destruct (Z.even _)| |]; lia.
Qed.

Lemma round_half_even_mono (x y : Q) :
  x <= y -> (round_half_even x <= round_half_even y)%Z.
Proof.
  intros Hxy.
  pose proof (Qfloor_resp_le _ _ Hxy) as Hfl.
  destruct (Z.eq_dec (Qfloor x) (Qfloor y)) as [E|NE].
  - unfold round_half_even. rewrite E.
    set (n := inject_Z (Qfloor y)). 
    destruct (Qcompare_spec (x - n) (1 # 2)) as [X|X|X];
      destruct (Qcompare_spec (y - n) (1 # 2)) as [Y|Y|Y];
      clearbody n; try (exfalso; lra); try destruct (Z.even _); lia.
  - pose proof (round_half_even_floor x). pose proof (round_half_even_floor y). lia.
Qed.

Lemma tenths_le (z1 z2 : Z) :
  (z1 <= z2)%Z -> inject_Z z1 / 10 <= inject_Z z2 / 10.
Proof.
  intros H. rewrite Zle_Qle in H.
  set (a := inject_Z z1) in *. set (b := inject_Z z2) in *. clearbody a b.
  unfold Qdiv. change (/ 10) with (1 # 10). lra.
Qed.

Lemma round1_mono (a b : Q) :
  a <= b ->
  exists r r', round1 (Fin a) = Fin r /\ round1 (Fin b) = Fin r' /\ r <= r'.
Proof.
  intros H. do 2 eexists. split; [reflexivity|]. split; [reflexivity|].
  rewrite !Qred_correct. apply tenths_le, round_half_even_mono. lra.
Qed.

Lemma py_min_fin (r : Q) :
  py_min (Fin r) (Fin 10) = Fin (if Qle_bool r 10 then r else 10).
Proof. unfold py_min, num_ltb. destruct (Qle_bool r 10); reflexivity. Qed.

Lemma clamp_mono (r r' : Q) :
  r <= r' ->
  (if Qle_bool r 10 then r else 10) <= (if Qle_bool r' 10 then r' else 10).
Proof.
  intros H.
  destruct (Qle_bool r 10) eqn:E; destruct (Qle_bool r' 10) eqn:E';
    try apply Qle_bool_iff in E; try apply Qle_bool_iff in E'; try lra.
  exfalso. assert (L : r <= 10) by lra. apply Qle_bool_iff in L. congruence.
Qed.

(** A clamped score grows with the value it rounds. *)
Lemma clamped_mono (a b : Q) :
  a <= b ->
  exists q q', py_min (round1 (Fin a)) (Fin 10) = Fin q /\
               py_min (round1 (Fin b)) (Fin 10) = Fin q' /\ q <= q'.
Proof.
  intros H. destruct (round1_mono a b H) as (r & r' & -> & -> & Hr).
  rewrite !py_min_fin. do 2 eexists. split; [reflexivity|]. split; [reflexivity|].
  apply clamp_mono, Hr.
Qed.

(** The three clamped scores are monotone: a larger income, head count or
    event attendance never lowers the score.  Both versions. *)
Theorem clamped_scores_monotone (x y : Q) :
  x <= y ->
  (exists q q', V1.score_income (Fin x) = Ok (Fin q) /\
                V1.score_income (Fin y) = Ok (Fin q') /\ q <= q') /\
  (exists q q', V1.score_team (Fin x) = Ok (Fin q) /\
                V1.score_team (Fin y) = Ok (Fin q') /\ q <= q') /\
  (exists q q', V1.score_integration (Fin x) = Ok (Fin q) /\
                V1.score_integration (Fin y) = Ok (Fin q') /\ q <= q') /\
  (exists q q', V2.score_income (Fin x) = Ok (Fin q) /\
                V2.score_income (Fin y) = Ok (Fin q') /\ q <= q') /\
  (exists q q', V2.score_team (Fin x) = Ok (Fin q) /\
                V2.score_team (Fin y) = Ok (Fin q') /\ q <= q') /\
  (exists q q', V2.score_integration (Fin x) = Ok (Fin q) /\
                V2.score_integration (Fin y) = Ok (Fin q') /\ q <= q').
Proof.
  intros H.
  rewrite score_income_same, score_team_same, score_integration_same.
  assert (I : exists q q', V1.score_income (Fin x) = Ok (Fin q) /\
                V1.score_income (Fin y) = Ok (Fin q') /\ q <= q').
  { rewrite !score_income_value.
    destruct (clamped_mono (x / 1000000 * 2) (y / 1000000 * 2)) as (q & q' & -> & -> & L).
    - unfold Qdiv. change (/ 1000000) with (1 # 1000000). lra.
    - eauto. }
  assert (T : exists q q', V1.score_team (Fin x) = Ok (Fin q) /\
                V1.score_team (Fin y) = Ok (Fin q') /\ q <= q').
  { rewrite !score_team_value.
    destruct (clamped_mono (x * 2) (y * 2)) as (q & q' & -> & -> & L); [lra|eauto]. }
  assert (G : exists q q', V1.score_integration (Fin x) = Ok (Fin q) /\
                V1.score_integration (Fin y) = Ok (Fin q') /\ q <= q').
  { rewrite !score_integration_value.
    destruct (clamped_mono (x / 2) (y / 2)) as (q & q' & -> & -> & L).
    - unfold Qdiv. change (/ 2) with (1 # 2). lra.
    - eauto. }
  tauto.
Qed.

Lemma clamped_scores_monotone_witness :
  exists q q', V1.score_income (Fin 1000000) = Ok (Fin q) /\
               V1.score_income (Fin 3000000) = Ok (Fin q') /\ q <= q'.
Proof.
  apply (clamped_scores_monotone 1000000 3000000). discriminate.
Defined.

Lemma clamp_saturates (a : Q) :
  10 <= a -> py_min (round1 (Fin a)) (Fin 10) = Fin 10.
Proof.
  intros H.
  assert (Z100 : (100 <= round_half_even (a * 10))%Z).
  { apply round_half_even_ge. change (inject_Z 100) with 100. lra. }
  unfold round1. rewrite py_min_fin.
  set (r := Qred (inject_Z (round_half_even (a * 10)) / 10)).
  destruct (Qle_bool r 10) eqn:E; [|reflexivity].
  apply Qle_bool_iff in E. unfold r in E. rewrite Qred_correct in E.
  assert (Z100' : (round_half_even (a * 10) <= 100)%Z).
  { rewrite Zle_Qle. change (inject_Z 100) with 100.
    set (z := inject_Z (round_half_even (a * 10))) in *. clearbody z.
    unfold Qdiv in E. change (/ 10) with (1 # 10) in E. lra. }
  assert (Zeq : round_half_even (a * 10) = 100%Z) by lia.
  unfold r. rewrite Zeq. reflexivity.
Qed.

(** Saturation: from 5,000,000 of income, 5 of head count and 20 events on,
    the score is exactly 10.  Both versions. *)
Theorem clamped_scores_saturate :
  (forall val, 5000000 <= val ->
     V1.score_income (Fin val) = Ok (Fin 10) /\ V2.score_income (Fin val) = Ok (Fin 10)) /\
  (forall fte, 5 <= fte ->
     V1.score_team (Fin fte) = Ok (Fin 10) /\ V2.score_team (Fin fte) = Ok (Fin 10)) /\
  (forall events, 20 <= events ->
     V1.score_integration (Fin events) = Ok (Fin 10) /\
     V2.score_integration (Fin events) = Ok (Fin 10)).
Proof.
  rewrite score_income_same, score_team_same, score_integration_same.
  split; [|split].
  - intros val H. rewrite score_income_value, clamp_saturates; [auto|].
    unfold Qdiv. change (/ 1000000) with (1 # 1000000). lra.
  - intros fte H. rewrite score_team_value, clamp_saturates; [auto|lra].
  - intros events H. rewrite score_integration_value, clamp_saturates; [auto|].
    unfold Qdiv. change (/ 2) with (1 # 2). lra.
Qed.

Lemma clamped_scores_saturate_witness :
  V1.score_income (Fin 7500000) = Ok (Fin 10) /\
  V2.score_income (Fin 7500000) = Ok (Fin 10).
Proof.
  destruct clamped_scores_saturate as (Income & _).
  apply (Income 7500000). discriminate.
Defined.

Lemma round1_range (lo hi : Z) (a : Q) :
  inject_Z lo <= a * 10 <= inject_Z hi ->
  num_between (inject_Z lo / 10) (inject_Z hi / 10) (round1 (Fin a)).
Proof.
  intros H. destruct (round1_between lo hi a H) as (r & -> & Hr). exact Hr.
Qed.

(** More gifts than asks: the pipeline score stays between 0 and 8, so the
    top score 10 needs [gifts <= asks].  Both versions. *)
Theorem score_pipeline_capped_at_8 (gifts asks : Q) :
  0 <= asks -> asks < gifts ->
  exists q, V1.score_pipeline (Fin gifts) (Fin asks) = Ok (Fin q) /\
            V2.score_pipeline (Fin gifts) (Fin asks) = Ok (Fin q) /\
            0 <= q <= 8.
Proof.
  intros Ha More. rewrite score_pipeline_same.
  destruct (Qeq_dec asks 0) as [Z|NZ].
  - rewrite (score_pipeline_zero _ _ Z). exists 0. repeat split; discriminate.
  - assert (Gnz : ~ gifts == 0) by lra.
    rewrite (score_pipeline_more _ _ NZ More), (num_div_nonzero _ _ Gnz).
    cbn [bind num_mul].
    destruct (unit_quotient asks gifts) as [L U]; [lra..|].
    destruct (round1_between 0 80 (asks / gifts * 8)) as (r & -> & Hr).
    + change (inject_Z 0) with 0. change (inject_Z 80) with 80. lra.
    + exists r. split; [reflexivity|]. split; [reflexivity|].
      change (inject_Z 0 / 10) with (0 / 10) in Hr.
      change (inject_Z 80 / 10) with (80 / 10) in Hr.
      setoid_replace (0 / 10) with 0 in Hr by reflexivity.
      setoid_replace (80 / 10) with 8 in Hr by reflexivity.
      exact Hr.
Qed.

Lemma score_pipeline_capped_at_8_witness :
  exists q, V1.score_pipeline (Fin 20) (Fin 15) = Ok (Fin q) /\
            V2.score_pipeline (Fin 20) (Fin 15) = Ok (Fin q) /\
            0 <= q <= 8.
Proof.
  apply (score_pipeline_capped_at_8 20 15); [discriminate | reflexivity].
Defined.

Lemma clamped_is_fin (a : Q) : exists r, py_min (round1 (Fin a)) (Fin 10) = Fin r.
Proof. unfold round1. rewrite py_min_fin. eauto. Qed.

Lemma composite_score_value (i p t g : Q) :
  V1.composite_score (Fin i) (Fin p) (Fin t) (Fin g)
  = Ok (round1 (Fin ((i + p + t + g) / 4))).
Proof. reflexivity. Qed.

Lemma composite_bounds (i p t g : Q) :
  0 <= i <= 10 -> 0 <= p <= 10 -> 0 <= t <= 10 -> 0 <= g <= 10 ->
  exists c, V1.composite_score (Fin i) (Fin p) (Fin t) (Fin g) = Ok (Fin c) /\
            V2.composite_score (Fin i) (Fin p) (Fin t) (Fin g) = Ok (Fin c) /\
            0 <= c <= 10 /\
            (t == 2 -> (1 # 2) <= c <= 8).
Proof.
  intros Hi Hp Ht Hg. rewrite composite_score_same, composite_score_value.
  set (x := (i + p + t + g) / 4).
  assert (Hx : x == (i + p + t + g) * (1 # 4)) by reflexivity.
  exists (Qred (inject_Z (round_half_even (x * 10)) / 10)).
  split; [reflexivity|]. split; [reflexivity|]. split.
  - destruct (round1_between 0 100 x) as (r & E & Hr).
    { change (inject_Z 0) with 0. change (inject_Z 100) with 100. rewrite Hx. lra. }
    injection E as <-.
    change (inject_Z 0 / 10) with (0 / 10) in Hr.
    change (inject_Z 100 / 10) with (100 / 10) in Hr.
    setoid_replace (0 / 10) with 0 in Hr by reflexivity.
    setoid_replace (100 / 10) with 10 in Hr by reflexivity.
    exact Hr.
  - intros T2.
    destruct (round1_between 5 80 x) as (r & E & Hr).
    { change (inject_Z 5) with 5. change (inject_Z 80) with 80. rewrite Hx. lra. }
    injection E as <-.
    change (inject_Z 5 / 10) with (5 / 10) in Hr.
    change (inject_Z 80 / 10) with (80 / 10) in Hr.
    setoid_replace (5 / 10) with (1 # 2) in Hr by reflexivity.
    setoid_replace (80 / 10) with 8 in Hr by reflexivity.
    exact Hr.
Qed.

(** The composite of four scores between 0 and 10 lies between 0 and 10;
    with the team score at its fixed value 2 it lies between 0.5 and 8.
    Both versions. *)
Theorem composite_score_bounds (i p t g : Q) :
  0 <= i <= 10 -> 0 <= p <= 10 -> 0 <= t <= 10 -> 0 <= g <= 10 ->
  exists c, V1.composite_score (Fin i) (Fin p) (Fin t) (Fin g) = Ok (Fin c) /\
            V2.composite_score (Fin i) (Fin p) (Fin t) (Fin g) = Ok (Fin c) /\
            0 <= c <= 10 /\
            (t == 2 -> (1 # 2) <= c <= 8).
Proof. apply composite_bounds. Qed.

Lemma composite_score_bounds_witness :
  exists c, V1.composite_score (Fin 4) (Fin 6) (Fin 2) (Fin 2) = Ok (Fin c) /\
            V2.composite_score (Fin 4) (Fin 6) (Fin 2) (Fin 2) = Ok (Fin c) /\
            0 <= c <= 10 /\
            (2 == 2 -> (1 # 2) <= c <= 8).
Proof.
  apply (composite_score_bounds 4 6 2 2); split; discriminate.
Defined.

(** * Further properties of the averages *)

Lemma dropna_In (q : Q) (xs : list num) : In q (dropna xs) <-> In (Fin q) xs.
Proof.
  unfold dropna. rewrite in_flat_map. split.
  - intros ([a|] & Hin & Hq); simpl in Hq; [|contradiction].
    destruct Hq as [<-|[]]. exact Hin.
  - intros Hin. exists (Fin q). simpl. auto.
Qed.

Lemma count_succ (n : nat) :
  inject_Z (Z.of_nat (S n)) == inject_Z (Z.of_nat n) + 1.
Proof. rewrite Nat2Z.inj_succ. unfold Z.succ. rewrite inject_Z_plus. reflexivity. Qed.

Lemma count_pos (n : nat) : 0 < inject_Z (Z.of_nat (S n)).
Proof.
  change 0 with (inject_Z 0). rewrite <- Zlt_Qlt. lia.
Qed.

Lemma Qsum_ge (lo : Q) (qs : list Q) :
  (forall q, In q qs -> lo <= q) ->
  lo * inject_Z (Z.of_nat (List.length qs)) <= Qsum qs.
Proof.
  induction qs as [|a qs IH]; intros H.
  - simpl. change (inject_Z 0) with 0. lra.
  - cbn [List.length Qsum fold_right]. rewrite count_succ.
    assert (Ha : lo <= a) by (apply H; simpl; auto).
    assert (IH' : lo * inject_Z (Z.of_nat (List.length qs)) <= Qsum qs)
      by (apply IH; intros; apply H; simpl; auto).
    unfold Qsum in IH'.
    set (n := inject_Z (Z.of_nat (List.length qs))) in *. clearbody n.
    set (t := fold_right Qplus 0 qs) in *. clearbody t. lra.
Qed.

Lemma mean_cases (xs : list num) :
  (mean xs = NaN /\ dropna xs = []) \/
  (exists q qs, dropna xs = q :: qs /\
     mean xs = Fin (Qsum (q :: qs) / inject_Z (Z.of_nat (S (List.length qs))))).
Proof.
  unfold mean. destruct (dropna xs) as [|q qs]; [left; auto|right].
  exists q, qs. split; reflexivity.
Qed.

Lemma mean_ge (lo : Q) (xs : list num) (m : Q) :
  (forall q, In (Fin q) xs -> lo <= q) -> mean xs = Fin m -> lo <= m.
Proof.
  intros H E. destruct (mean_cases xs) as [[N _]|(q & qs & D & M)]; [congruence|].
  rewrite M in E. injection E as <-.
  apply Qle_shift_div_l; [apply count_pos|].
  apply (Qsum_ge lo (q :: qs)). intros a Ha. apply H, dropna_In. rewrite D. exact Ha.
Qed.

Example mean_skips_nan : num_equiv (mean [Fin 4; NaN; Fin 6]) (Fin 5).
Proof. reflexivity. Qed.

(** A bucket of one column averages to the mean of that column. *)
Theorem single_column_bucket (xs : list num) :
  num_equiv (mean_of_means [xs]) (mean xs).
Proof.
  unfold mean_of_means. simpl map.
  destruct (mean xs) as [m|]; [|exact I].
  unfold mean. simpl. unfold Qdiv. change (/ inject_Z 1) with 1. ring.
Qed.

Lemma nonneg_mean (xs : list num) :
  Forall nonneg_or_nan xs -> nonneg_or_nan (mean xs).
Proof.
  intros F. destruct (mean xs) as [m|] eqn:E; [|exact I].
  simpl. apply (mean_ge 0 xs); [|exact E].
  intros q Hq. rewrite Forall_forall in F. apply (F (Fin q) Hq).
Qed.

Lemma nonneg_mean_of_means (frame : list (list num)) :
  Forall (Forall nonneg_or_nan) frame -> nonneg_or_nan (mean_of_means frame).
Proof.
  intros F. apply nonneg_mean. induction F; simpl; constructor; auto.
  apply nonneg_mean. assumption.
Qed.

(** * Further properties of a run *)

Lemma team_score_value : V1.team_score = Ok (Fin 2) /\ V2.team_score = Ok (Fin 2).
Proof. split; reflexivity. Qed.

Lemma v1_income_score_total (a : metric_averages) :
  exists r, V1.income_score a = Ok r /\ (m_income a = NaN -> r = NaN) /\
            (notna (m_income a) = true -> notna r = true).
Proof.
  unfold V1.income_score. destruct (m_income a) as [q|].
  - rewrite score_income_value. destruct (clamped_is_fin (q / 1000000 * 2)) as [r ->].
    exists (Fin r). repeat split; auto. discriminate.
  - exists NaN. repeat split; auto.
Qed.

Lemma v1_integration_score_total (a : metric_averages) :
  exists r, V1.integration_score a = Ok r /\ (m_events a = NaN -> r = NaN) /\
            (notna (m_events a) = true -> notna r = true).
Proof.
  unfold V1.integration_score. destruct (m_events a) as [q|].
  - rewrite score_integration_value. destruct (clamped_is_fin (q / 2)) as [r ->].
    exists (Fin r). repeat split; auto. discriminate.
  - exists NaN. repeat split; auto.
Qed.

Lemma composite_score_nan (i p t g : num) :
  i = NaN \/ p = NaN \/ t = NaN \/ g = NaN -> V1.composite_score i p t g = Ok NaN.
Proof.
  intros H. destruct i, p, t, g; try reflexivity.
  exfalso. destruct H as [H|[H|[H|H]]]; discriminate H.
Qed.

(** The shape of [scores] in version 1: the pipeline score decides whether
    it returns. *)
Lemma v1_scores_cases (a : metric_averages) :
  (exists s, V1.scores a = Ok s /\
     V1.income_score a = Ok (s_income s) /\
     V1.pipeline_score a = Ok (s_pipeline s) /\
     s_team s = Fin 2 /\
     V1.integration_score a = Ok (s_integration s) /\
     V1.composite_score (s_income s) (s_pipeline s) (Fin 2) (s_integration s)
     = Ok (s_composite s)) \/
  (exists e, V1.scores a = Raise e /\ V1.pipeline_score a = Raise e).
Proof.
  destruct (v1_income_score_total a) as (si & Si & _).
  destruct (v1_integration_score_total a) as (sg & Sg & _).
  unfold V1.scores. rewrite Si. cbn [bind].
  destruct (V1.pipeline_score a) as [sp|e] eqn:P;
    [left|right; exists e; split; reflexivity].
  cbn [bind]. change V1.team_score with (@Ok num (Fin 2)). cbn [bind].
  rewrite Sg. cbn [bind].
  destruct (composite_score_total si sp (Fin 2) sg) as [sc Sc]. rewrite Sc.
  eexists. split; [reflexivity|]. simpl. repeat split; auto.
Qed.

Lemma v2_income_score_fin (a : metric_averages) :
  exists r, V2.income_score a = Ok (Fin r).
Proof.
  unfold V2.income_score. destruct (m_income a) as [q|]; simpl; [|eauto].
  rewrite score_income_same, score_income_value. 
  destruct (clamped_is_fin (q / 1000000 * 2)) as [r ->]. eauto.
Qed.

Lemma v2_integration_score_fin (a : metric_averages) :
  exists r, V2.integration_score a = Ok (Fin r).
Proof.
  unfold V2.integration_score. destruct (m_events a) as [q|]; simpl; [|eauto].
  rewrite score_integration_same, score_integration_value.
  destruct (clamped_is_fin (q / 2)) as [r ->]. eauto.
Qed.

Lemma v2_scores_cases (a : metric_averages) :
  (exists s, V2.scores a = Ok s /\
     V2.income_score a = Ok (s_income s) /\
     V2.pipeline_score a = Ok (s_pipeline s) /\
     s_team s = Fin 2 /\
     V2.integration_score a = Ok (s_integration s) /\
     V2.composite_score (s_income s) (s_pipeline s) (Fin 2) (s_integration s)
     = Ok (s_composite s)) \/
  (exists e, V2.scores a = Raise e /\ V2.pipeline_score a = Raise e).
Proof.
  destruct (v2_income_score_fin a) as (si & Si).
  destruct (v2_integration_score_fin a) as (sg & Sg).
  unfold V2.scores. rewrite Si. cbn [bind].
  destruct (V2.pipeline_score a) as [sp|e] eqn:P;
    [left|right; exists e; split; reflexivity].
  cbn [bind]. change V2.team_score with (@Ok num (Fin 2)). cbn [bind].
  rewrite Sg. cbn [bind]. rewrite composite_score_same.
  destruct (composite_score_total (Fin si) sp (Fin 2) (Fin sg)) as [sc Sc]. rewrite Sc.
  eexists. split; [reflexivity|]. simpl. repeat split; auto.
Qed.


(** In version 1 a NaN average reaches the panel: it makes its own score
    NaN, and with it the composite. *)
Theorem v1_nan_reaches_composite (a : metric_averages) (s : score_set) :
  V1.scores a = Ok s ->
  (m_income a = NaN -> s_income s = NaN /\ s_composite s = NaN) /\
  (m_events a = NaN -> s_integration s = NaN /\ s_composite s = NaN) /\
  (m_interactions a = NaN -> s_pipeline s = NaN /\ s_composite s = NaN) /\
  (m_gifts a = NaN -> num_eqb (m_interactions a) (Fin 0) = false ->
     s_pipeline s = NaN /\ s_composite s = NaN).
Proof.
  intros E.
  destruct (v1_scores_cases a) as [(s' & E' & I & P & T & G & C)|(e & E' & _)];
    [|congruence].
  assert (s' = s) by congruence. subst s'.
  assert (Comp : s_income s = NaN \/ s_pipeline s = NaN \/ Fin 2 = NaN \/
                 s_integration s = NaN -> s_composite s = NaN).
  { intros N. rewrite (composite_score_nan _ _ _ _ N) in C. congruence. }
  split; [|split; [|split]].
  - intros N. unfold V1.income_score in I. rewrite N in I.
    assert (N' : s_income s = NaN) by (injection I as <-; reflexivity).
    split; [exact N' | apply Comp; tauto].
  - intros N. unfold V1.integration_score in G. rewrite N in G.
    assert (N' : s_integration s = NaN) by (injection G as <-; reflexivity).
    split; [exact N' | apply Comp; tauto].
  - intros N. unfold V1.pipeline_score in P. rewrite N in P.
    assert (N' : s_pipeline s = NaN).
    { destruct (m_gifts a); injection P as <-; reflexivity. }
    split; [exact N' | apply Comp; tauto].
  - intros N Z. unfold V1.pipeline_score, V1.score_pipeline in P.
    rewrite N, Z in P.
    assert (N' : s_pipeline s = NaN).
    { destruct (m_interactions a) as [k|];
        [|simpl in P; injection P as <-; reflexivity].
      simpl in Z. unfold num_gtb, num_ltb, num_div in P. rewrite Z in P.
      injection P as <-. reflexivity. }
    split; [exact N' | apply Comp; tauto].
Qed.

Lemma v1_nan_reaches_composite_witness :
  exists s, V1.scores nan_income_averages = Ok s /\
            s_income s = NaN /\ s_composite s = NaN.
Proof.
  eexists. split; [reflexivity|].
  apply (v1_nan_reaches_composite nan_income_averages _ eq_refl). reflexivity.
Defined.

(** Version 2 keeps a NaN average away from the scorer and scores it 0: a
    NaN average income gives the income score 0, a NaN average of events the
    integration score 0, a NaN average gift count or interactions the
    pipeline score 0; with all three the composite is 0.5, the share of the
    fixed team score. *)
Theorem v2_nan_average_scores_zero (a : metric_averages) (s : score_set) :
  V2.scores a = Ok s ->
  (m_income a = NaN -> s_income s = Fin 0) /\
  (m_events a = NaN -> s_integration s = Fin 0) /\
  (m_gifts a = NaN \/ m_interactions a = NaN -> s_pipeline s = Fin 0) /\
  (m_income a = NaN -> m_events a = NaN ->
   m_gifts a = NaN \/ m_interactions a = NaN ->
   s_team s = Fin 2 /\ s_composite s = Fin (1 # 2)).
Proof.
  intros E.
  destruct (v2_scores_cases a) as [(s' & E' & I & P & T & G & C)|(e & E' & _)];
    [|congruence].
  assert (s' = s) by congruence. subst s'.
  assert (Hi : m_income a = NaN -> s_income s = Fin 0).
  { intros N. unfold V2.income_score in I. rewrite N in I.
    injection I as <-. reflexivity. }
  assert (Hg : m_events a = NaN -> s_integration s = Fin 0).
  { intros N. unfold V2.integration_score in G. rewrite N in G.
    injection G as <-. reflexivity. }
  assert (Hp : m_gifts a = NaN \/ m_interactions a = NaN -> s_pipeline s = Fin 0).
  { intros N. unfold V2.pipeline_score in P.
    destruct N as [N|N]; rewrite N in P.
    - injection P as <-. reflexivity.
    - rewrite andb_false_r in P. injection P as <-. reflexivity. }
  split; [exact Hi|]. split; [exact Hg|]. split; [exact Hp|].
  intros Ni Ne Np. split; [exact T|].
  rewrite (Hi Ni), (Hp Np), (Hg Ne) in C.
  injection C as <-. reflexivity.
Qed.

Lemma v2_nan_average_scores_zero_witness :
  exists s, V2.scores nan_income_averages = Ok s /\ s_income s = Fin 0.
Proof.
  eexists. split; [reflexivity|].
  apply (v2_nan_average_scores_zero nan_income_averages _ eq_refl). reflexivity.
Defined.

(** With all four averages available the guards of version 2 change
    nothing: both versions compute the same scores; and when none of those
    scores is NaN they draw the same panel. *)
Theorem versions_agree_on_available_averages (a : metric_averages) :
  notna (m_income a) = true -> notna (m_gifts a) = true ->
  notna (m_interactions a) = true -> notna (m_events a) = true ->
  V2.scores a = V1.scores a /\
  (forall s, V1.scores a = Ok s ->
     notna (s_income s) = true -> notna (s_pipeline s) = true ->
     notna (s_team s) = true -> notna (s_integration s) = true ->
     notna (s_composite s) = true ->
     V2.panel s = V1.panel s).
Proof.
  intros Hi Hg Hk He. split.
  - unfold V2.scores, V1.scores, V2.income_score, V2.pipeline_score,
      V2.integration_score, V1.income_score, V1.pipeline_score, V1.integration_score.
    rewrite Hi, Hg, Hk, He. reflexivity.
  - intros s _ Ni Np Nt Ng Nc.
    unfold V2.panel, V1.panel, V2.color_box, V1.color_box.
    rewrite Ni, Np, Nt, Ng, Nc. simpl negb. cbv iota.
    repeat (f_equal;
      repeat match goal with |- context [if ?b then _ else _] => destruct b end;
      try reflexivity).
Qed.

Lemma versions_agree_on_available_averages_witness :
  V2.scores section8_averages = V1.scores section8_averages.
Proof.
  apply (versions_agree_on_available_averages section8_averages); reflexivity.
Defined.

(** The colour of a box.  On a number both versions agree: red up to 3,
    orange below 7, green from 7 on.  On NaN version 1 draws a green box
    holding the NaN, version 2 a grey box reading "N/A". *)
Theorem color_box_colours (label : string) :
  (forall q : Q,
     V1.color_box label (Fin q) = V2.color_box label (Fin q) /\
     box_text (V1.color_box label (Fin q)) = OutOfTen (Fin q) /\
     box_color (V1.color_box label (Fin q))
     = (if Qle_bool q 3 then "#FF4B4B"
        else if Qle_bool 7 q then "#4CAF50" else "#FFA500")%string) /\
  V1.color_box label NaN
  = {| box_label := label; box_color := "#4CAF50"; box_text := OutOfTen NaN |} /\
  V2.color_box label NaN
  = {| box_label := label; box_color := "#CCCCCC"; box_text := NotAvailable |}.
Proof.
  split; [|split; reflexivity].
  intros q. unfold V1.color_box, V2.color_box, num_leb, num_ltb. simpl negb. cbv iota.
  destruct (Qle_bool q 3), (Qle_bool 7 q); repeat split; reflexivity.
Qed.

(** * Tables without negative numbers *)

Lemma getitem_In (df : dataframe) (n : string) (s : series) :
  getitem df n = Ok s -> In (n, s) df.
Proof.
  induction df as [|[m s'] df IH]; simpl; [discriminate|].
  destruct (String.eqb n m) eqn:E.
  - apply String.eqb_eq in E. intros [= ->]. subst. auto.
  - auto.
Qed.

Lemma getitems_columns (df : dataframe) (names : list string) (frame : list series) :
  getitems df names = Ok frame -> Forall (fun s => exists n, In (n, s) df) frame.
Proof.
  revert frame. induction names as [|n names IH]; simpl; intros frame E.
  - injection E as <-. constructor.
  - destruct (getitem df n) as [s|] eqn:G; simpl in E; [|discriminate].
    destruct (getitems df names) as [rest|] eqn:Gs; simpl in E; [|discriminate].
    injection E as <-. constructor; [|apply IH; reflexivity].
    exists n. apply getitem_In, G.
Qed.

Lemma column_nonneg (conv : cell -> num) (df : dataframe) (n : string) (s : series) :
  table_nonneg conv df -> In (n, s) df -> Forall nonneg_or_nan (map conv s).
Proof.
  intros T Hin. unfold table_nonneg in T. rewrite Forall_forall in T.
  specialize (T (n, s) Hin). simpl in T.
  apply Forall_map. exact T.
Qed.

Lemma frame_nonneg (conv : cell -> num) (df : dataframe) (names : list string)
  (frame : list series) :
  table_nonneg conv df -> getitems df names = Ok frame ->
  Forall (Forall nonneg_or_nan) (map (map conv) frame).
Proof.
  intros T G. apply getitems_columns in G.
  induction G as [|s frame (n & Hin) _ IH]; simpl; constructor; [|exact IH].
  apply (column_nonneg conv df n s T Hin).
Qed.

Section NonNegative.
Context `{Pandas}.

Lemma bucket_average_nonneg (conv : cell -> num) (df : dataframe)
  (names : list string) (x : num) :
  table_nonneg conv df ->
  (frame <- (frame <- getitems df names ;; Ok (map (map conv) frame)) ;;
   Ok (mean_of_means frame))%result = Ok x ->
  nonneg_or_nan x.
Proof.
  intros T. destruct (getitems df names) as [frame|] eqn:G; simpl; [|discriminate].
  intros [= <-]. apply nonneg_mean_of_means. apply (frame_nonneg conv df names); assumption.
Qed.

Lemma column_average_nonneg (conv : cell -> num) (df : dataframe) (n : string)
  (x : num) :
  table_nonneg conv df ->
  (if has_column df n
   then (s <- (s <- getitem df n ;; Ok (map conv s)) ;; Ok (mean s))%result
   else Ok (Fin 0)) = Ok x ->
  nonneg_or_nan x.
Proof.
  intros T. destruct (has_column df n); [|intros [= <-]; discriminate].
  destruct (getitem df n) as [s|] eqn:G; simpl; [|discriminate].
  intros [= <-]. apply nonneg_mean. apply (column_nonneg conv df n s T).
  apply getitem_In, G.
Qed.

Lemma v1_averages_nonneg (df : dataframe) (a : metric_averages) :
  table_nonneg to_numeric df -> table_nonneg comma_numeric df ->
  V1.averages df = Ok a ->
  nonneg_or_nan (m_income a) /\ nonneg_or_nan (m_gifts a) /\
  nonneg_or_nan (m_interactions a) /\ nonneg_or_nan (m_events a).
Proof.
  intros Tn Tc. unfold V1.averages.
  destruct (V1.avg_income df) as [i|] eqn:I; simpl; [|discriminate].
  destruct (V1.avg_gifts df) as [g|] eqn:G; simpl; [|discriminate].
  destruct (V1.avg_interactions df) as [k|] eqn:K; simpl; [|discriminate].
  destruct (V1.avg_events df) as [e|] eqn:E; simpl; [|discriminate].
  intros [= <-]. simpl.
  split; [apply (bucket_average_nonneg comma_numeric df _ i Tc I)|].
  split; [apply (bucket_average_nonneg to_numeric df _ g Tn G)|].
  split; [apply (column_average_nonneg to_numeric df _ k Tn K)|].
  apply (column_average_nonneg to_numeric df _ e Tn E).
Qed.

Lemma v2_averages_nonneg (df : dataframe) (a : metric_averages) :
  table_nonneg to_numeric df -> table_nonneg V2.clean_currency_cell df ->
  V2.averages df = Ok a ->
  nonneg_or_nan (m_income a) /\ nonneg_or_nan (m_gifts a) /\
  nonneg_or_nan (m_interactions a) /\ nonneg_or_nan (m_events a).
Proof.
  intros Tn Tc. unfold V2.averages.
  destruct (V2.avg_income df) as [i|] eqn:I; simpl; [|discriminate].
  destruct (V2.avg_gifts df) as [g|] eqn:G; simpl; [|discriminate].
  destruct (V2.avg_interactions df) as [k|] eqn:K; simpl; [|discriminate].
  destruct (V2.avg_events df) as [e|] eqn:E; simpl; [|discriminate].
  intros [= <-]. simpl.
  split; [apply (bucket_average_nonneg V2.clean_currency_cell df _ i Tc I)|].
  split; [apply (bucket_average_nonneg to_numeric df _ g Tn G)|].
  split; [|apply (column_average_nonneg to_numeric df _ e Tn E)].
  unfold V2.avg_interactions, V2.interactions_data in K.
  destruct (has_column df V2.interaction_col); [|injection K as <-; discriminate].
  destruct (getitem df V2.interaction_col) as [s|] eqn:Gi; simpl in K; [|discriminate].
  injection K as <-.
  destruct (series_empty (V2.clean_currency s)); simpl; [discriminate|].
  apply nonneg_mean.
  apply (column_nonneg V2.clean_currency_cell df V2.interaction_col s Tc).
  apply getitem_In, Gi.
Qed.

End NonNegative.

Lemma between_of_in_0_10 (r : result num) :
  in_0_10 r -> exists v, r = Ok v /\ num_between 0 10 v.
Proof. intros (q & -> & Hq). exists (Fin q). auto. Qed.

Lemma section8_nonneg_numeric : @table_nonneg (@to_numeric Decimal.pandas) section8_table.
Proof. repeat constructor; vm_compute; try exact I; discriminate. Defined.

Lemma section8_nonneg_currency :
  @table_nonneg (@V2.clean_currency_cell Decimal.pandas) section8_table.
Proof. repeat constructor; vm_compute; try exact I; discriminate. Defined.

Lemma v2_scores_nonneg (a : metric_averages) :
  nonneg_or_nan (m_income a) -> nonneg_or_nan (m_gifts a) ->
  nonneg_or_nan (m_interactions a) -> nonneg_or_nan (m_events a) ->
  exists s, V2.scores a = Ok s /\
    num_between 0 10 (s_income s) /\
    (s_pipeline s = NaN \/ num_between 0 10 (s_pipeline s)) /\
    s_team s = Fin 2 /\ num_between 0 10 (s_integration s) /\
    (s_composite s = NaN \/ num_between (1 # 2) 8 (s_composite s)).
Proof.
  intros Hi Hg Hk He.
  assert (I : in_0_10 (V2.income_score a)).
  { unfold V2.income_score. destruct (m_income a) as [q|]; simpl.
    - rewrite score_income_same. apply score_income_in_0_10, Hi.
    - exists 0. split; [reflexivity|]. split; discriminate. }
  assert (P : in_0_10 (V2.pipeline_score a)).
  { unfold V2.pipeline_score.
    destruct (m_gifts a) as [g|], (m_interactions a) as [k|]; simpl;
      try (exists 0; split; [reflexivity|]; split; discriminate).
    rewrite score_pipeline_same. apply score_pipeline_in_0_10; assumption. }
  assert (G : in_0_10 (V2.integration_score a)).
  { unfold V2.integration_score. destruct (m_events a) as [q|]; simpl.
    - rewrite score_integration_same. apply score_integration_in_0_10, He.
    - exists 0. split; [reflexivity|]. split; discriminate. }
  destruct I as (qi & I & Bi), P as (qp & P & Bp), G as (qg & G & Bg).
  destruct (composite_bounds qi qp 2 qg Bi Bp) as (c & _ & C & _ & Bc);
    [split; discriminate | exact Bg |].
  exists {| s_income := Fin qi; s_pipeline := Fin qp; s_team := Fin 2;
            s_integration := Fin qg; s_composite := Fin c |}.
  split.
  - unfold V2.scores. rewrite I, P, G. change V2.team_score with (@Ok num (Fin 2)).
    cbn [bind]. rewrite C. reflexivity.
  - simpl. split; [exact Bi|]. split; [right; exact Bp|]. split; [reflexivity|].
    split; [exact Bg|]. right. apply Bc. reflexivity.
Qed.

(** Version 2 on a table whose cells are numbers that are not negative, or
    do not parse: the run renders its panel; the income and integration
    scores lie between 0 and 10; the pipeline score is NaN or lies between 0
    and 10; the team score is 2; and the composite is NaN or lies between
    0.5 and 8. *)
Theorem v2_nonnegative_table_scores `{Pandas} (df : dataframe) :
  table_nonneg to_numeric df -> table_nonneg V2.clean_currency_cell df ->
  exists s, V2.run df = Rendered s /\
    num_between 0 10 (s_income s) /\
    (s_pipeline s = NaN \/ num_between 0 10 (s_pipeline s)) /\
    s_team s = Fin 2 /\ num_between 0 10 (s_integration s) /\
    (s_composite s = NaN \/ num_between (1 # 2) 8 (s_composite s)).
Proof.
  intros Tn Tc. destruct (v2_averages_ok df) as (a & A).
  destruct (v2_averages_nonneg df a Tn Tc A) as (Hi & Hg & Hk & He).
  destruct (v2_scores_nonneg a Hi Hg Hk He) as (s & S & B).
  exists s. split; [|exact B]. unfold V2.run. rewrite A, S. reflexivity.
Qed.

Lemma v2_nonnegative_table_scores_witness :
  exists s, @V2.run Decimal.pandas section8_table = Rendered s /\
    num_between 0 10 (s_income s) /\
    (s_pipeline s = NaN \/ num_between 0 10 (s_pipeline s)) /\
    s_team s = Fin 2 /\ num_between 0 10 (s_integration s) /\
    (s_composite s = NaN \/ num_between (1 # 2) 8 (s_composite s)).
Proof.
  apply (@v2_nonnegative_table_scores Decimal.pandas section8_table
           section8_nonneg_numeric section8_nonneg_currency).
Defined.

Lemma v1_score_pipeline_nonneg (g k : num) :
  nonneg_or_nan g -> nonneg_or_nan k ->
  exists v, V1.score_pipeline g k = Ok v /\ (v = NaN \/ num_between 0 10 v).
Proof.
  intros Hg Hk. destruct k as [a|].
  - destruct g as [b|].
    + destruct (score_pipeline_in_0_10 b a Hg Hk) as (q & -> & Hq).
      exists (Fin q). auto.
    + unfold V1.score_pipeline, num_eqb, num_gtb, num_ltb, num_div.
      destruct (Qeq_bool a 0).
      * exists (Fin 0). split; [reflexivity|]. right. split; discriminate.
      * exists NaN. auto.
  - exists NaN. split; [destruct g; reflexivity | auto].
Qed.

(** Version 1 on such a table: the run renders its panel, and each of the
    income, pipeline and integration scores is NaN or lies between 0 and 10;
    the team score is 2; the composite is NaN or lies between 0.5 and 8. *)
Theorem v1_nonnegative_table_scores `{Pandas} (df : dataframe) :
  table_nonneg to_numeric df -> table_nonneg comma_numeric df ->
  exists s, V1.run df = Rendered s /\
    (s_income s = NaN \/ num_between 0 10 (s_income s)) /\
    (s_pipeline s = NaN \/ num_between 0 10 (s_pipeline s)) /\
    s_team s = Fin 2 /\
    (s_integration s = NaN \/ num_between 0 10 (s_integration s)) /\
    (s_composite s = NaN \/ num_between (1 # 2) 8 (s_composite s)).
Proof.
  intros Tn Tc.
  destruct (v1_averages_ok df) as (i & g & k & e & _ & _ & _ & _ & A).
  set (a := {| m_income := i; m_gifts := g; m_interactions := k; m_events := e |}) in *.
  destruct (v1_averages_nonneg df a Tn Tc A) as (Hi & Hg & Hk & He).
  assert (I : exists v, V1.income_score a = Ok v /\ (v = NaN \/ num_between 0 10 v)).
  { unfold V1.income_score. destruct (m_income a) as [q|].
    - destruct (score_income_in_0_10 q Hi) as (r & -> & Hr). exists (Fin r). auto.
    - exists NaN. auto. }
  assert (P : exists v, V1.pipeline_score a = Ok v /\ (v = NaN \/ num_between 0 10 v))
    by (apply v1_score_pipeline_nonneg; assumption).
  assert (G : exists v, V1.integration_score a = Ok v /\ (v = NaN \/ num_between 0 10 v)).
  { unfold V1.integration_score. destruct (m_events a) as [q|].
    - destruct (score_integration_in_0_10 q He) as (r & -> & Hr). exists (Fin r). auto.
    - exists NaN. auto. }
  destruct I as (si & I & Bi), P as (sp & P & Bp), G as (sg & G & Bg).
  assert (C : exists c, V1.composite_score si sp (Fin 2) sg = Ok c /\
                        (c = NaN \/ num_between (1 # 2) 8 c)).
  { destruct si as [qi|]; [|exists NaN; split; [apply composite_score_nan|]; auto].
    destruct sp as [qp|]; [|exists NaN; split; [apply composite_score_nan|]; auto].
    destruct sg as [qg|]; [|exists NaN; split; [apply composite_score_nan|]; auto].
    destruct Bi as [Bi|Bi]; [discriminate|].
    destruct Bp as [Bp|Bp]; [discriminate|].
    destruct Bg as [Bg|Bg]; [discriminate|].
    destruct (composite_bounds qi qp 2 qg Bi Bp) as (c & C & _ & _ & Bc);
      [split; discriminate | exact Bg |].
    exists (Fin c). split; [exact C|]. right. apply Bc. reflexivity. }
  destruct C as (sc & C & Bc).
  exists {| s_income := si; s_pipeline := sp; s_team := Fin 2;
            s_integration := sg; s_composite := sc |}.
  split; [|simpl; tauto].
  unfold V1.run. rewrite A. unfold V1.scores. rewrite I, P, G.
  change V1.team_score with (@Ok num (Fin 2)). cbn [bind]. rewrite C. reflexivity.
Qed.

Lemma no_interactions_nonneg_numeric :
  @table_nonneg (@to_numeric Decimal.pandas) no_interactions_table.
Proof. repeat constructor; vm_compute; try exact I; discriminate. Defined.

Lemma no_interactions_nonneg_comma :
  @table_nonneg (@comma_numeric Decimal.pandas) no_interactions_table.
Proof. repeat constructor; vm_compute; try exact I; discriminate. Defined.

Lemma v1_nonnegative_table_scores_witness :
  exists s, @V1.run Decimal.pandas no_interactions_table = Rendered s /\
    (s_income s = NaN \/ num_between 0 10 (s_income s)) /\
    (s_pipeline s = NaN \/ num_between 0 10 (s_pipeline s)) /\
    s_team s = Fin 2 /\
    (s_integration s = NaN \/ num_between 0 10 (s_integration s)) /\
    (s_composite s = NaN \/ num_between (1 # 2) 8 (s_composite s)).
Proof.
  apply (@v1_nonnegative_table_scores Decimal.pandas no_interactions_table
           no_interactions_nonneg_numeric no_interactions_nonneg_comma).
Defined.


(** * Further properties of the column selector and the cleaner *)

Local Open Scope string_scope.

Lemma string_app_assoc (a b c : string) : (a ++ b) ++ c = a ++ (b ++ c).
Proof. induction a as [|x a IH]; simpl; [|rewrite IH]; reflexivity. Qed.

Lemma donations_count_has_count (name : string) :
  Substring "Donations Count" name -> Substring "Count" name.
Proof.
  intros (pre & post & ->). exists (pre ++ "Donations "), post.
  rewrite string_app_assoc. reflexivity.
Qed.

Lemma donations_count_has_donations (name : string) :
  Substring "Donations Count" name -> Substring "Donations" name.
Proof.
  intros (pre & post & ->). exists pre, (" Count" ++ post). reflexivity.
Qed.

(** No column is in both buckets: a gift-count column contains "Count" and is
    therefore kept out of the income bucket; and every column of either
    bucket contains "Donations".  Both versions. *)
Theorem income_and_count_buckets_disjoint (df : dataframe) (name : string) :
  (In name (V1.income_cols df) -> ~ In name (V1.count_cols df)) /\
  (In name (V2.income_cols df) -> ~ In name (V2.count_cols df)) /\
  (In name (V1.income_cols df) \/ In name (V1.count_cols df) ->
     In name (columns df) /\ Substring "Donations" name) /\
  (In name (V2.income_cols df) \/ In name (V2.count_cols df) ->
     In name (columns df) /\ Substring "Donations" name).
Proof.
  assert (D : In name (V1.income_cols df) -> ~ In name (V1.count_cols df)).
  { intros I C. apply income_cols_spec in I. apply count_cols_spec in C.
    destruct I as (_ & _ & N), C as (_ & C). apply N, donations_count_has_count, C. }
  assert (S : In name (V1.income_cols df) \/ In name (V1.count_cols df) ->
     In name (columns df) /\ Substring "Donations" name).
  { intros [I|C].
    - apply income_cols_spec in I. tauto.
    - apply count_cols_spec in C. destruct C as (Hin & C).
      split; [exact Hin | apply donations_count_has_donations, C]. }
  split; [exact D|]. split; [exact D|]. split; exact S.
Qed.

Lemma income_and_count_buckets_disjoint_witness :
  In "Donations 2023" (V1.income_cols section8_table) /\
  ~ In "Donations 2023" (V1.count_cols section8_table).
Proof.
  assert (I : In "Donations 2023" (V1.income_cols section8_table))
    by (simpl; auto).
  split; [exact I|].
  apply (income_and_count_buckets_disjoint section8_table "Donations 2023"), I.
Defined.

Lemma remove_chars_app (cls : ascii -> bool) (a b : string) :
  remove_chars cls (a ++ b) = remove_chars cls a ++ remove_chars cls b.
Proof.
  induction a as [|x a IH]; simpl; [reflexivity|].
  rewrite IH. destruct (cls x); reflexivity.
Qed.

Lemma remove_chars_ext (f g : ascii -> bool) (s : string) :
  (forall c, CharIn c s -> f c = g c) -> remove_chars f s = remove_chars g s.
Proof.
  unfold CharIn. induction s as [|x s IH]; simpl; intros E; [reflexivity|].
  rewrite (E x) by auto. rewrite IH by auto. reflexivity.
Qed.

Lemma space_is_kept (c : ascii) : is_space c = true -> is_pound_or_comma c = false.
Proof.
  intros S. unfold is_pound_or_comma.
  destruct (Ascii.eqb c pound) eqn:P; [apply Ascii.eqb_eq in P; subst; discriminate S|].
  destruct (Ascii.eqb c comma) eqn:C; [apply Ascii.eqb_eq in C; subst; discriminate S|].
  reflexivity.
Qed.

Lemma rstrip_cons (c : ascii) (s : string) :
  rstrip (String c s)
  = match rstrip s with
    | EmptyString => if is_space c then EmptyString else String c EmptyString
    | r => String c r
    end.
Proof. reflexivity. Qed.

Lemma rstrip_app_space (t : string) (c : ascii) :
  is_space c = true -> rstrip (t ++ String c EmptyString) = rstrip t.
Proof.
  intros S. induction t as [|d t IH].
  - simpl. rewrite S. reflexivity.
  - change (String d t ++ String c EmptyString) with (String d (t ++ String c EmptyString)).
    rewrite !rstrip_cons, IH. reflexivity.
Qed.

Lemma strip_app_space (t : string) (c : ascii) :
  is_space c = true -> strip (t ++ String c EmptyString) = strip t.
Proof.
  intros S. unfold strip. induction t as [|d t IH].
  - simpl. rewrite S. reflexivity.
  - change (String d t ++ String c EmptyString) with (String d (t ++ String c EmptyString)).
    cbn [lstrip]. destruct (is_space d); [exact IH|].
    apply (rstrip_app_space (String d t) c S).
Qed.

(** [clean_currency] does not see the decoration of a number: a pound sign
    or a comma inserted anywhere, and a whitespace character put in front
    or at the end, leave the result unchanged. *)
Theorem clean_currency_ignores_decoration `{Pandas} (a b : string) (c : ascii) :
  (c = pound \/ c = comma ->
     V2.clean_currency_cell (CStr (a ++ String c b))
     = V2.clean_currency_cell (CStr (a ++ b))) /\
  (is_space c = true ->
     V2.clean_currency_cell (CStr (String c a)) = V2.clean_currency_cell (CStr a) /\
     V2.clean_currency_cell (CStr (a ++ String c EmptyString))
     = V2.clean_currency_cell (CStr a)).
Proof.
  unfold V2.clean_currency_cell. cbn [astype_str]. split.
  - intros Hc. rewrite !remove_chars_app. cbn [remove_chars].
    assert (E : is_pound_or_comma c = true) by (destruct Hc; subst; reflexivity).
    rewrite E. reflexivity.
  - intros S. pose proof (space_is_kept c S) as K. split.
    + cbn [remove_chars]. rewrite K. unfold strip. cbn [lstrip]. rewrite S. reflexivity.
    + rewrite remove_chars_app. cbn [remove_chars]. rewrite K.
      rewrite (strip_app_space _ c S). reflexivity.
Qed.

Lemma clean_currency_ignores_decoration_witness :
  @V2.clean_currency_cell Decimal.pandas (CStr ("1" ++ String comma "000"))
  = @V2.clean_currency_cell Decimal.pandas (CStr ("1" ++ "000")).
Proof.
  apply (@clean_currency_ignores_decoration Decimal.pandas "1" "000" comma).
  right. reflexivity.
Defined.

Lemma CharIn_remove_chars (cls : ascii -> bool) (c : ascii) (s : string) :
  CharIn c (remove_chars cls s) -> cls c = false /\ CharIn c s.
Proof.
  unfold CharIn. induction s as [|x s IH]; simpl; [contradiction|].
  destruct (cls x) eqn:E; simpl.
  - intros Hin. destruct (IH Hin). auto.
  - intros [<-|Hin]; [auto|]. destruct (IH Hin). auto.
Qed.

Lemma CharIn_lstrip (c : ascii) (s : string) : CharIn c (lstrip s) -> CharIn c s.
Proof.
  unfold CharIn. induction s as [|x s IH]; simpl; [contradiction|].
  destruct (is_space x); simpl; auto.
Qed.

Lemma CharIn_rstrip (c : ascii) (s : string) : CharIn c (rstrip s) -> CharIn c s.
Proof.
  unfold CharIn. induction s as [|x s IH]; [contradiction|].
  rewrite rstrip_cons. destruct (rstrip s) as [|y r] eqn:R.
  - destruct (is_space x); simpl; [contradiction|]. intros [<-|[]]. auto.
  - cbn [list_ascii_of_string In]. intros [<-|Hin]; auto.
Qed.

Lemma lstrip_no_leading_space (s : string) : leading_space (lstrip s) = false.
Proof.
  induction s as [|x s IH]; simpl; [reflexivity|].
  destruct (is_space x) eqn:E; [exact IH | exact E].
Qed.

Lemma rstrip_no_trailing_space (s : string) : trailing_space (rstrip s) = false.
Proof.
  induction s as [|x s IH]; [reflexivity|].
  rewrite rstrip_cons. destruct (rstrip s) as [|y r] eqn:R.
  - destruct (is_space x) eqn:E; [reflexivity | exact E].
  - exact IH.
Qed.

Lemma rstrip_keeps_leading (s : string) :
  leading_space s = false -> leading_space (rstrip s) = false.
Proof.
  destruct s as [|x s]; [reflexivity|]. intros E.
  change (is_space x = false) in E.
  rewrite rstrip_cons. destruct (rstrip s); [rewrite E|]; exact E.
Qed.

(** What [clean_currency] hands to the parser is clean: it holds no pound
    sign and no comma, and neither starts nor ends with whitespace; cleaning
    it again changes nothing. *)
Theorem cleaned_text_is_clean (s : string) :
  clean_text (strip (remove_chars is_pound_or_comma s)) /\
  strip (remove_chars is_pound_or_comma (strip (remove_chars is_pound_or_comma s)))
  = strip (remove_chars is_pound_or_comma s).
Proof.
  assert (C : clean_text (strip (remove_chars is_pound_or_comma s))).
  { unfold clean_text, strip. repeat split.
    - intros Hin. apply CharIn_rstrip, CharIn_lstrip, CharIn_remove_chars in Hin.
      destruct Hin as [E _]. discriminate E.
    - intros Hin. apply CharIn_rstrip, CharIn_lstrip, CharIn_remove_chars in Hin.
      destruct Hin as [E _]. discriminate E.
    - apply rstrip_keeps_leading, lstrip_no_leading_space.
    - apply rstrip_no_trailing_space. }
  split; [exact C | apply strip_currency_id, C].
Qed.

(** The two cleaners on text.  On a string without a pound sign whose
    comma-free form has no whitespace at either end, version 1 and version 2
    parse the same text; the gift-count and events averages are computed the
    same way in both versions on every table. *)
Theorem cleaners_agree_without_pound `{Pandas} (s : string) :
  ~ CharIn pound s ->
  leading_space (remove_chars is_comma s) = false ->
  trailing_space (remove_chars is_comma s) = false ->
  comma_numeric (CStr s) = V2.clean_currency_cell (CStr s) /\
  (forall df, V1.avg_gifts df = V2.avg_gifts df /\ V1.avg_events df = V2.avg_events df).
Proof.
  intros Np L T. split; [|intros df; split; reflexivity].
  unfold comma_numeric, V2.clean_currency_cell. cbn [replace_commas to_numeric astype_str].
  assert (E : remove_chars is_pound_or_comma s = remove_chars is_comma s).
  { apply remove_chars_ext. intros c Hin. unfold is_pound_or_comma, is_comma.
    destruct (Ascii.eqb c pound) eqn:P; [|reflexivity].
    apply Ascii.eqb_eq in P. subst. contradiction. }
  rewrite E. unfold strip. rewrite (lstrip_id _ L), (rstrip_id _ T). reflexivity.
Qed.

Lemma no_pound_in_1000 : ~ CharIn pound "1,000".
Proof.
  unfold CharIn. simpl. intros Hin.
  repeat (destruct Hin as [Hin|Hin]; [discriminate Hin|]). exact Hin.
Defined.

Lemma cleaners_agree_without_pound_witness :
  @comma_numeric Decimal.pandas (CStr "1,000")
  = @V2.clean_currency_cell Decimal.pandas (CStr "1,000").
Proof.
  apply (@cleaners_agree_without_pound Decimal.pandas "1,000" no_pound_in_1000);
    reflexivity.
Defined.


